(** * Expansion drivers of tensor/linear-ops.cc

    A shallow embedding of the three expansion drivers of
    [src/tensor/linear-ops.cc] (PlusEqOp::Expand / PlusEqOp::ExpandCpu,
    AssignOp::Expand and AddProduct), followed by the properties of the
    dispatch that the design document states about them.

    The drivers are straight-line code around a [switch] on a packed
    pattern code.  They write three things: the local pointer [new_op], the
    output vector [ops], and (for the two-step reduction) a temporary
    tensor.  They stop either by returning or through [KALDI_ERR] /
    [KALDI_ASSERT], which are fatal.  The embedding is therefore a small
    state-and-error monad over those three pieces of state; a fatal error
    keeps the state reached when it was raised, so that "nothing had been
    appended yet" is a statement about the result. *)

From Stdlib Require Import ZArith List Bool Lia.
From Equations Require Import Equations.
Import ListNotations.
Local Open Scope Z_scope.

Set Implicit Arguments.

(* ===================================================================== *)
(** * The tensor container, as far as the drivers read it               *)
(* ===================================================================== *)

(** [a.DeviceType()] is compared with [kCpuDevice] (line 27) and with
    [kCuda] (line 151). *)
Inductive DeviceType : Set := kCpuDevice | kCuda.

(** [a.Device()] is compared as a whole (lines 227 and 236). *)
Record Device : Set := mkDevice { device_type : DeviceType; device_id : Z }.

(** Modelled from the spec: the element-type enumeration is declared in a
    header that is not part of the sources.  The drivers name the float type,
    the double type (line 153) and [kInt32Dtype] (line 142); the [default:]
    label of line 144 is there for every other value of the enumeration,
    which [kOtherDtype] stands for. *)
Inductive DataType : Set :=
| kFloatDtype
| kDoubleDtype
| kInt32Dtype
| kOtherDtype (tag : Z).

(** A pattern: dims and strides are indexed by raxis (index 0 is the
    fastest-varying axis); [code] is the cached pattern code that AddProduct
    reads as [a.pattern.code]. *)
Record Pattern : Set := mkPattern {
  num_axes : Z;
  dims : list Z;
  strides : list Z;
  code : Z
}.

(** [storage] identifies the data a tensor views: [WithPattern] keeps it,
    a newly constructed tensor has its own. *)
Record TensorImpl : Set := mkImpl {
  pattern : Pattern;
  dtype : DataType;
  device : Device;
  storage : Z
}.

Record Tensor : Set := mkTensor { Impl : TensorImpl }.

Definition Dtype (t : Tensor) : DataType := dtype (Impl t).
Definition GetDevice (t : Tensor) : Device := device (Impl t).
Definition GetDeviceType (t : Tensor) : DeviceType := device_type (device (Impl t)).
Definition GetPattern (t : Tensor) : Pattern := pattern (Impl t).

Definition DeviceType_eq_dec (x y : DeviceType) : {x = y} + {x <> y}.
Proof. decide equality. Defined.

Definition Device_eq_dec (x y : Device) : {x = y} + {x <> y}.
Proof. decide equality; [apply Z.eq_dec | apply DeviceType_eq_dec]. Defined.

Definition DataType_eq_dec (x y : DataType) : {x = y} + {x <> y}.
Proof. decide equality; apply Z.eq_dec. Defined.

Definition Pattern_eq_dec (x y : Pattern) : {x = y} + {x <> y}.
Proof. decide equality; try apply Z.eq_dec; apply (list_eq_dec Z.eq_dec). Defined.

(** [WithPattern(a, p)]: the same data seen through pattern [p]. *)
Definition WithPattern (t : Tensor) (p : Pattern) : Tensor :=
  mkTensor (mkImpl p (dtype (Impl t)) (device (Impl t)) (storage (Impl t))).

(** [b.Pattern().dims[1]]: the dims array is indexed by raxis. *)
Definition dim_at (p : Pattern) (raxis : nat) : Z := nth raxis (dims p) 0.

(** [a.Dtype() == kFloat || a.Dtype() == kDouble] (line 153). *)
Definition is_real (d : DataType) : bool :=
  match d with
  | kFloatDtype | kDoubleDtype => true
  | _ => false
  end.

(** The collaborators the drivers call but that live in other files.  They
    are left abstract: nothing below depends on what they compute, only on
    where their results flow. *)
Class TensorLib : Type := {
  (** [ReducePatterns({a_pattern, b_pattern})], updating the two local
      copies (line 46). *)
  ReducePatterns : Pattern -> Pattern -> Pattern * Pattern;
  (** [NormalizePatterns({a_pattern, b_pattern})] (lines 208 and 253). *)
  NormalizePatterns : Pattern -> Pattern -> Pattern * Pattern;
  (** [p.GetCode()] (line 58). *)
  GetCode : Pattern -> Z;
  (** [Tensor temp({dims...}, {dtype, device})] (line 112). *)
  NewTensor : list Z -> DataType -> Device -> Tensor;
  (** [SqueezeR(t, raxis)] (line 121) and [Squeeze(t, axis)] (line 189). *)
  SqueezeR : Tensor -> Z -> Tensor;
  Squeeze : Tensor -> Z -> Tensor
}.

(** Modelled from the spec: CombineCodes is declared in pattern-utils.h.  The
    comment of lines 61-76 fixes what it computes: the combined code reads as
    the hex number 0xAAABBB, one 12-bit chunk per operand, first operand most
    significant; for three operands, 0xAAABBBCCC (lines 359-365). *)
Definition CombineCodes (code_a code_b : Z) : Z :=
  Z.lor (Z.shiftl code_a 12) code_b.

Definition CombineCodes3 (code_a code_b code_c : Z) : Z :=
  Z.lor (Z.shiftl (Z.lor (Z.shiftl code_a 12) code_b) 12) code_c.

(* ===================================================================== *)
(** * Ops and the plan under construction                               *)
(* ===================================================================== *)

(** The class templates the drivers instantiate. *)
Inductive OpName : Set :=
| PlusEqRefOp
| PlusEqRefCpuOp
| ScalarPlusEqScalarCpuOp
| StvectorPlusEqStvectorCpuOp
| ScalarPlusEqStvectorCpuOp
| StvectorPlusEqScalarCpuOp
| ColVectorEqMatrixCpuOp
| StvectorPlusEqMatrix
| StvectorPlusEqStvectorCudaOp
| ScalarPlusEqStvectorCudaOp
| StvectorPlusEqScalarCudaOp
| ColVectorEqMatrixOp
| ScalarPlusEqStvectorOp
| AssignRefOp
| ScalarPlusEqScalarOp
| StvectorPlusEqStvectorOp
| StvectorPlusEqScalarOp.

(** An op as the driver leaves it: which template, instantiated at which
    element type(s), for which device when the macro is given one, bound to
    which operands. *)
Record Op : Set := mkOp {
  op_name : OpName;
  op_types : list DataType;
  op_device : option DeviceType;
  op_args : list Tensor
}.

Inductive Error : Set :=
| ErrUnexpectedDtype (d : DataType)        (* line 145 *)
| ErrNotCompiledForCuda                    (* lines 195-196 *)
| ErrCrossDeviceTypeConversion             (* lines 228-229 *)
| ErrCrossDevice                           (* line 237 *)
| ErrUnhandledCode (combined_code : Z)     (* line 336 *)
| ErrAssertFailed                          (* KALDI_ASSERT *)
| ErrIncompatibleOperands                  (* CheckDeviceAndDtype, line 353 *)
| ErrUninitializedOp.                      (* push_back of an unset new_op *)

(** [new_op] is declared without initializer ([Op *new_op;]); [ops] is the
    caller's vector; [temporaries] records the tensors the driver
    constructed. *)
Record Plan : Set := mkPlan {
  new_op : option Op;
  ops : list Op;
  temporaries : list Tensor
}.

Definition enter (ops0 : list Op) : Plan := mkPlan None ops0 [].

(** A call either returns, or is cut short by a fatal error; in both cases
    the state reached is kept. *)
Inductive Outcome (S A : Type) : Type :=
| Returned (x : A) (s : S)
| Fatal (e : Error) (s : S).
Arguments Returned {S A} x s.
Arguments Fatal {S A} e s.

Definition M (S A : Type) : Type := S -> Outcome S A.

Definition ret {S A} (x : A) : M S A := fun s => Returned x s.

Definition bind {S A B} (m : M S A) (k : A -> M S B) : M S B :=
  fun s => match m s with
           | Returned x s' => k x s'
           | Fatal e s' => Fatal e s'
           end.

Notation "x <- m ;; k" := (bind m (fun x => k))
  (at level 61, m at next level, right associativity).
Notation "m ;; k" := (bind m (fun _ => k))
  (at level 61, right associativity).

(** [KALDI_ERR << ...]. *)
Definition KALDI_ERR {S A} (e : Error) : M S A := fun s => Fatal e s.

Definition KALDI_ASSERT {S} (cond : bool) : M S unit :=
  if cond then ret tt else KALDI_ERR ErrAssertFailed.

Definition final_state {S A} (o : Outcome S A) : S :=
  match o with
  | Returned _ s => s
  | Fatal _ s => s
  end.

Definition Expansion (A : Type) : Type := M Plan A.

Definition set_new_op (o : Op) : Expansion unit :=
  fun s => Returned tt (mkPlan (Some o) (ops s) (temporaries s)).

(** [ops->push_back(new_op)]. *)
Definition push_back_new_op : Expansion unit :=
  fun s => match new_op s with
           | Some o => Returned tt (mkPlan (new_op s) (ops s ++ [o]) (temporaries s))
           | None => Fatal ErrUninitializedOp s
           end.

(** [Tensor temp(dims, {dtype, device})]. *)
Definition construct_Tensor {L : TensorLib} (ds : list Z) (dt : DataType) (dev : Device)
  : Expansion Tensor :=
  fun s => let t := NewTensor ds dt dev in
           Returned t (mkPlan (new_op s) (ops s) (temporaries s ++ [t])).

(** Modelled from the spec: the SET_TO_TEMPLATED_* macros are defined in a
    header that is not part of the sources.  The spec has the backends,
    "given (operand tensors, element type, device, dispatch key), construct a
    concrete Op"; the comment of lines 79-80 adds that the ops exist for a
    general element type, so that the driver need not test for float or
    double.  Each macro therefore assigns to [new_op], its first argument, a
    new instance of the named template at the run-time element type, on the
    operands given; the form with a device argument passes that on to the
    template.  None of them has a way to fail. *)
Definition SET_TO_TEMPLATED_CPU_OP_ALL (d : DataType) (n : OpName) (args : list Tensor)
  : Expansion unit :=
  set_new_op (mkOp n [d] None args).

Definition SET_TO_TEMPLATED_OP_ALL (d : DataType) (n : OpName) (args : list Tensor)
  : Expansion unit :=
  set_new_op (mkOp n [d] None args).

Definition SET_TO_TEMPLATED_OP_REAL (d : DataType) (n : OpName) (args : list Tensor)
  : Expansion unit :=
  set_new_op (mkOp n [d] None args).

Definition SET_TO_TEMPLATED_OP_REAL_DEV (d : DataType) (dev : DeviceType) (n : OpName)
    (args : list Tensor) : Expansion unit :=
  set_new_op (mkOp n [d] (Some dev) args).

Definition SET_TO_TEMPLATED_OP_ALLPAIRS (d1 d2 : DataType) (n : OpName)
    (args : list Tensor) : Expansion unit :=
  set_new_op (mkOp n [d1; d2] None args).

(** [case c1: case c2: ...] labels sharing one body. *)
Definition is_case (combined_code : Z) (labels : list Z) : bool :=
  existsb (Z.eqb combined_code) labels.
Arguments is_case : simpl never.

(* ===================================================================== *)
(** * PlusEqOp: a += b                                                  *)
(* ===================================================================== *)

Section BinaryDrivers.

Context {L : TensorLib}.

(** [ReferenceMode()] is a global run-time switch; [HAVE_CUDA] is fixed when
    the program is built. *)
Variable ReferenceMode : bool.
Variable HAVE_CUDA : bool.

(** Lines 83-139: the [switch] of the CPU branch.  [a_], [b_] are the
    operands as given, [a], [b] the views with reduced patterns.

    The [case 0x101103: case 0x001103:] group (lines 127-132) has no
    [break]: control runs on into [default:], whose assignment replaces the
    one just made. *)
Definition PlusEq_cpu_switch (a_ b_ a b : Tensor) (combined_code : Z)
  : Expansion unit :=
  if is_case combined_code [0x000000] then
    SET_TO_TEMPLATED_OP_REAL (Dtype a) ScalarPlusEqScalarCpuOp [a; b]
  else if is_case combined_code [0x101101; 0x001001; 0x101001; 0x001101] then
    SET_TO_TEMPLATED_OP_REAL (Dtype a) StvectorPlusEqStvectorCpuOp [a; b]
  else if is_case combined_code [0x000101; 0x000001] then
    SET_TO_TEMPLATED_OP_REAL (Dtype a) ScalarPlusEqStvectorCpuOp [a; b]
  else if is_case combined_code [0x101000; 0x001000] then
    SET_TO_TEMPLATED_OP_REAL (Dtype a) StvectorPlusEqScalarCpuOp [a; b]
  else if is_case combined_code [0x000103] then
    let num_rows := dim_at (GetPattern b) 1 in
    temp <- construct_Tensor [num_rows; 1] (Dtype a) (GetDevice a) ;;
    SET_TO_TEMPLATED_OP_REAL (Dtype a) ColVectorEqMatrixCpuOp [temp; b] ;;
    push_back_new_op ;;
    let temp_normalized := SqueezeR temp 0 in
    SET_TO_TEMPLATED_OP_REAL (Dtype a) ScalarPlusEqStvectorCpuOp [a; temp_normalized]
  else if is_case combined_code [0x101103; 0x001103] then
    SET_TO_TEMPLATED_OP_REAL (Dtype a) StvectorPlusEqMatrix [] ;;
    SET_TO_TEMPLATED_OP_ALL (Dtype a_) PlusEqRefCpuOp [a_; b_]
  else
    SET_TO_TEMPLATED_OP_ALL (Dtype a_) PlusEqRefCpuOp [a_; b_].


(** Lines 140-198 are not part of the control flow of any function: the
    text after the [switch] closes two conditionals ([} else {] at lines 140
    and 150) that were never opened.  The three definitions that follow
    render that text for reference; no driver below enters them.

    Lines 141-146: [switch (dtype)] under "CPU, but not float or double".
    [case kInt32Dtype:] has no [break], so the op it constructs is followed
    by the [KALDI_ERR] of [default:]. *)
Definition PlusEq_cpu_other_dtype (a_ b_ : Tensor) (d : DataType) : Expansion unit :=
  match d with
  | kInt32Dtype =>
      set_new_op (mkOp PlusEqRefOp [kInt32Dtype] None [a_; b_]) ;;
      KALDI_ERR (ErrUnexpectedDtype d)
  | _ => KALDI_ERR (ErrUnexpectedDtype d)
  end.

(** Lines 155-193: the [switch] of the accelerator branch.  It has no
    [default:] label, and the branch has no [push_back] after it. *)
Definition PlusEq_cuda_switch (a b : Tensor) (combined_code : Z) : Expansion unit :=
  if is_case combined_code [0x101101; 0x001001; 0x101001; 0x001101] then
    SET_TO_TEMPLATED_OP_REAL_DEV (Dtype a) (GetDeviceType a)
      StvectorPlusEqStvectorCudaOp [a; b]
  else if is_case combined_code [0x000101; 0x000001] then
    SET_TO_TEMPLATED_OP_REAL_DEV (Dtype a) (GetDeviceType a)
      ScalarPlusEqStvectorCudaOp [a; b]
  else if is_case combined_code [0x101000; 0x001000] then
    SET_TO_TEMPLATED_OP_REAL_DEV (Dtype a) (GetDeviceType a)
      StvectorPlusEqScalarCudaOp [a; b]
  else if is_case combined_code [0x000103] then
    let num_rows := dim_at (GetPattern b) 1 in
    temp <- construct_Tensor [num_rows; 1] (Dtype a) (GetDevice a) ;;
    SET_TO_TEMPLATED_OP_REAL_DEV (Dtype a) (GetDeviceType a)
      ColVectorEqMatrixOp [temp; b] ;;
    push_back_new_op ;;
    let temp_normalized := Squeeze temp 0 in
    SET_TO_TEMPLATED_OP_REAL_DEV (Dtype a) (GetDeviceType a)
      ScalarPlusEqStvectorOp [a; temp_normalized]
  else
    ret tt.

(** Lines 151-197: the text under the second [} else {]. *)
Definition PlusEq_cuda_branch (a b : Tensor) (combined_code : Z) : Expansion unit :=
  KALDI_ASSERT (if DeviceType_eq_dec (GetDeviceType a) kCuda then true else false) ;;
  if HAVE_CUDA then
    if is_real (Dtype a) then PlusEq_cuda_switch a b combined_code
    else ret tt
  else
    KALDI_ERR ErrNotCompiledForCuda.

(** Lines 42-59: reduce copies of the two patterns, rewrap an operand only
    when its pattern changed, and combine the two codes. *)
Definition reduced_views (reduce : Pattern -> Pattern -> Pattern * Pattern)
    (a_ b_ : Tensor) : Tensor * Tensor * Z :=
  let '(a_pattern, b_pattern) := reduce (GetPattern a_) (GetPattern b_) in
  let a := if Pattern_eq_dec a_pattern (GetPattern a_) then a_
           else WithPattern a_ a_pattern in
  let b := if Pattern_eq_dec b_pattern (GetPattern b_) then b_
           else WithPattern b_ b_pattern in
  (a, b, CombineCodes (GetCode a_pattern) (GetCode b_pattern)).

Definition reduced_a (reduce : Pattern -> Pattern -> Pattern * Pattern)
    (a_ b_ : Tensor) : Tensor := fst (fst (reduced_views reduce a_ b_)).
Definition reduced_b (reduce : Pattern -> Pattern -> Pattern * Pattern)
    (a_ b_ : Tensor) : Tensor := snd (fst (reduced_views reduce a_ b_)).
Definition reduced_code (reduce : Pattern -> Pattern -> Pattern * Pattern)
    (a_ b_ : Tensor) : Z := snd (reduced_views reduce a_ b_).

(** The first definition of PlusEqOp::ExpandCpu, as the text runs: the
    reference branch (lines 33-40), the pattern reduction (lines 42-59), the
    [switch] on the combined code (lines 83-139), and the [push_back] and
    [return] of lines 148-149.  There is no test of the element type or of
    the device between line 31 and the [switch] (lines 79-80 say why none is
    needed for the type; line 27 has tested the device). *)
Definition PlusEqOp_ExpandCpu (a_ b_ : Tensor) : Expansion unit :=
  if ReferenceMode then
    SET_TO_TEMPLATED_CPU_OP_ALL (Dtype a_) PlusEqRefOp [a_; b_] ;;
    push_back_new_op
  else
    let '(a, b, combined_code) := reduced_views ReducePatterns a_ b_ in
    PlusEq_cpu_switch a_ b_ a b combined_code ;;
    push_back_new_op.

(** Lines 202-221, the second definition of PlusEqOp::ExpandCpu: it
    normalizes the patterns, builds the two views and stops. *)
Definition PlusEqOp_ExpandCpu_second (a_ b_ : Tensor) : Expansion unit :=
  let '(a, b, _) := reduced_views NormalizePatterns a_ b_ in
  ret tt.

(** Modelled from the spec: the dispatch of PlusEqOp::ExpandCuda, which is
    not defined in the sources.  Section 4.3 of the spec gives both devices
    one contract: scalar op scalar, vector op vector, scalar op vector and
    vector op scalar take one kernel op each; scalar op matrix takes two ops
    through a column-shaped temporary, whose trivial axis is collapsed
    between them; vector op matrix takes the row-reduction kernel; "any other
    CombinedCode" takes the "reference/generic op for the operand's device".
    The labels are those of the CPU switch; the kernels carry the names of
    the accelerator text of lines 158-191 where it has one; every op is bound
    to the device type of the target. *)
Definition PlusEq_accelerator_dispatch (a_ b_ a b : Tensor) (combined_code : Z)
  : Expansion unit :=
  if is_case combined_code [0x000000] then
    SET_TO_TEMPLATED_OP_REAL_DEV (Dtype a) (GetDeviceType a) ScalarPlusEqScalarOp [a; b]
  else if is_case combined_code [0x101101; 0x001001; 0x101001; 0x001101] then
    SET_TO_TEMPLATED_OP_REAL_DEV (Dtype a) (GetDeviceType a)
      StvectorPlusEqStvectorCudaOp [a; b]
  else if is_case combined_code [0x000101; 0x000001] then
    SET_TO_TEMPLATED_OP_REAL_DEV (Dtype a) (GetDeviceType a)
      ScalarPlusEqStvectorCudaOp [a; b]
  else if is_case combined_code [0x101000; 0x001000] then
    SET_TO_TEMPLATED_OP_REAL_DEV (Dtype a) (GetDeviceType a)
      StvectorPlusEqScalarCudaOp [a; b]
  else if is_case combined_code [0x000103] then
    let num_rows := dim_at (GetPattern b) 1 in
    temp <- construct_Tensor [num_rows; 1] (Dtype a) (GetDevice a) ;;
    SET_TO_TEMPLATED_OP_REAL_DEV (Dtype a) (GetDeviceType a)
      ColVectorEqMatrixOp [temp; b] ;;
    push_back_new_op ;;
    SET_TO_TEMPLATED_OP_REAL_DEV (Dtype a) (GetDeviceType a)
      ScalarPlusEqStvectorOp [a; SqueezeR temp 0]
  else if is_case combined_code [0x101103; 0x001103] then
    SET_TO_TEMPLATED_OP_REAL_DEV (Dtype a) (GetDeviceType a) StvectorPlusEqMatrix [a; b]
  else
    set_new_op (mkOp PlusEqRefOp [Dtype a_] (Some (GetDeviceType a_)) [a_; b_]).

(** Modelled from the spec: PlusEqOp::ExpandCuda is called at line 28 and is
    not defined in the sources.  Sections 6 and 7 of the spec: when "an
    accelerator kernel is requested but that backend was not compiled/linked
    in", expansion is "fatal, configuration error"; the message is the one of
    lines 195-196.  Section 4.3: "reference mode is defined only for CPU -
    accelerator execution always uses fast-path-or-fallback dispatch", after
    the joint reduction of the patterns; every op of the plan is appended. *)
Definition PlusEqOp_ExpandCuda (a_ b_ : Tensor) : Expansion unit :=
  if HAVE_CUDA then
    let '(a, b, combined_code) := reduced_views ReducePatterns a_ b_ in
    PlusEq_accelerator_dispatch a_ b_ a b combined_code ;;
    push_back_new_op
  else
    KALDI_ERR ErrNotCompiledForCuda.

(** Lines 26-29. *)
Definition PlusEqOp_Expand (a_ b_ : Tensor) : Expansion unit :=
  if DeviceType_eq_dec (GetDeviceType a_) kCpuDevice then PlusEqOp_ExpandCpu a_ b_
  else PlusEqOp_ExpandCuda a_ b_.

(* ===================================================================== *)
(** * AssignOp: a = b                                                   *)
(* ===================================================================== *)

(** [Compatible(a_, b_)]: "dtype and device, check they match" (line 255). *)
Definition Compatible (a b : Tensor) : bool :=
  (if DataType_eq_dec (Dtype a) (Dtype b) then true else false)
  && (if Device_eq_dec (GetDevice a) (GetDevice b) then true else false).

(** Lines 289-337.  The [case 0x000103] block (lines 314-330) does not end
    in [break]: after its second op is constructed control reaches
    [default:], which is fatal. *)
Definition Assign_switch (a b : Tensor) (combined_code : Z) : Expansion unit :=
  if is_case combined_code [0x000000] then
    SET_TO_TEMPLATED_OP_REAL_DEV (Dtype a) (GetDeviceType a) ScalarPlusEqScalarOp [a; b]
  else if is_case combined_code [0x101101; 0x001001; 0x101001; 0x001101] then
    SET_TO_TEMPLATED_OP_REAL_DEV (Dtype a) (GetDeviceType a)
      StvectorPlusEqStvectorOp [a; b]
  else if is_case combined_code [0x000101; 0x000001] then
    SET_TO_TEMPLATED_OP_REAL_DEV (Dtype a) (GetDeviceType a)
      ScalarPlusEqStvectorOp [a; b]
  else if is_case combined_code [0x101000; 0x001000] then
    SET_TO_TEMPLATED_OP_REAL_DEV (Dtype a) (GetDeviceType a)
      StvectorPlusEqScalarOp [a; b]
  else if is_case combined_code [0x000103] then
    let num_rows := dim_at (GetPattern b) 1 in
    temp <- construct_Tensor [num_rows; 1] (Dtype a) (GetDevice a) ;;
    SET_TO_TEMPLATED_OP_REAL_DEV (Dtype a) (GetDeviceType a)
      ColVectorEqMatrixOp [temp; b] ;;
    push_back_new_op ;;
    let temp_normalized := Squeeze temp 0 in
    SET_TO_TEMPLATED_OP_REAL_DEV (Dtype a) (GetDeviceType a)
      ScalarPlusEqStvectorOp [a; temp_normalized] ;;
    KALDI_ERR (ErrUnhandledCode combined_code)
  else
    KALDI_ERR (ErrUnhandledCode combined_code).

(** Lines 223-339.  The two device tests of lines 226-238 read [a] and [b],
    which are declared only at line 257 as copies of the members [a_] and
    [b_]; element type and device of a copy are those of the member. *)
Definition AssignOp_Expand (a_ b_ : Tensor) : Expansion unit :=
  (if DataType_eq_dec (Dtype a_) (Dtype b_) then ret tt
   else if Device_eq_dec (GetDevice a_) (GetDevice b_) then ret tt
        else KALDI_ERR ErrCrossDeviceTypeConversion) ;;
  (if Device_eq_dec (GetDevice a_) (GetDevice b_) then ret tt
   else KALDI_ERR ErrCrossDevice) ;;
  if ReferenceMode
     && (if DeviceType_eq_dec (GetDeviceType a_) kCpuDevice then true else false) then
    SET_TO_TEMPLATED_OP_ALLPAIRS (Dtype a_) (Dtype b_) AssignRefOp [a_; b_] ;;
    push_back_new_op
  else
    let '(a, b, combined_code) := reduced_views NormalizePatterns a_ b_ in
    KALDI_ASSERT (Compatible a_ b_) ;;
    Assign_switch a b combined_code ;;
    push_back_new_op.

End BinaryDrivers.

(* ===================================================================== *)
(** * AddProduct: c += alpha (a . b)                                    *)
(* ===================================================================== *)

(** The kernels AddProduct hands the request to (lines 370-395). *)
Inductive ProductKernel : Set :=
| AddProductScalar3
| AddProductVecScalarVec
| AddProductVec3
| AddProductMatVecVec
| AddProductTmatVecVec
| AddProductVec2Mat.

(** What AddProduct calls, in the order it calls it.  [CallAddProduct]
    records an entry into AddProduct itself, with the operands it was
    entered with. *)
Inductive Call : Set :=
| CallAddProduct (a b : TensorImpl)
| CallKernel (k : ProductKernel) (a b c : TensorImpl)
| CallPadAxes (pa pb pc : Pattern)
| CallCompressPatterns (pa pb pc : Pattern).

(** Entries into AddProduct among the calls made. *)
Definition is_entry (k : Call) : bool :=
  match k with
  | CallAddProduct _ _ => true
  | _ => false
  end.

Definition entries (l : list Call) : nat := length (filter is_entry l).

(** The labels of the switch of lines 366-402. *)
Definition product_case_labels : list Z :=
  [0x000000000; 0x101000101; 0x101101101; 0x103101202; 0x203101202; 0x202101103].

(** AddProduct receives [a] and [b] by reference and [c] by pointer; the
    frame holds the three objects they denote (taken to be distinct
    objects) and the calls made so far. *)
Record Frame : Set := mkFrame {
  arg_a : TensorImpl;
  arg_b : TensorImpl;
  arg_c : TensorImpl;
  calls : list Call
}.

Definition record_call (k : Call) : M Frame unit :=
  fun s => Returned tt (mkFrame (arg_a s) (arg_b s) (arg_c s) (calls s ++ [k])).

Definition get_frame : M Frame Frame := fun s => Returned s s.

(** Modelled from the spec: CheckDeviceAndDtype is defined outside the
    sources; "device and element-type compatibility across all three operands
    is checked (fatal if violated)". *)
Definition CheckDeviceAndDtype (a b c : TensorImpl) : M Frame unit :=
  if (if Device_eq_dec (device a) (device b) then true else false)
     && (if Device_eq_dec (device a) (device c) then true else false)
     && (if DataType_eq_dec (dtype a) (dtype b) then true else false)
     && (if DataType_eq_dec (dtype a) (dtype c) then true else false)
  then ret tt
  else KALDI_ERR ErrIncompatibleOperands.

(** A kernel is handed the operands; what it computes on the data is outside
    the driver. *)
Definition run_kernel (k : ProductKernel) : M Frame unit :=
  fun s => Returned tt
    (mkFrame (arg_a s) (arg_b s) (arg_c s)
             (calls s ++ [CallKernel k (arg_a s) (arg_b s) (arg_c s)])).

(** The exchange of [a] and [b] seen from the caller: what the callee did to
    its [a] happened to the caller's [b]. *)
Definition exchange_frame (s : Frame) : Frame :=
  mkFrame (arg_b s) (arg_a s) (arg_c s) (calls s).

Definition exchange (o : Outcome Frame unit) : Outcome Frame unit :=
  match o with
  | Returned x s => Returned x (exchange_frame s)
  | Fatal e s => Fatal e (exchange_frame s)
  end.

Definition inspect {A : Type} (x : A) : {y : A | x = y} := exist _ x eq_refl.

(** 1 when the test of line 346 succeeds, 0 otherwise. *)
Definition swap_pending (a b : TensorImpl) : nat :=
  if code (pattern a) <? code (pattern b) then 1%nat else 0%nat.

Section ProductDriver.

(** [alpha] and [beta] are of type float; the body only passes them on to
    the recursive call. *)
Variable float : Type.

(** Lines 409-413.  [a_temp], [b_temp], [c_temp] are copies of the operands;
    PadAxes is called with the patterns of [a], [b] and [c], CompressPatterns
    with the copies.  [a] and [b] are references to const and [c] is a
    pointer to const (lines 343-344): nothing can be written to the operands
    through them.  The copies are locals, gone when the function returns on
    the next line.  So the two calls are recorded, with what they are
    called on, and the operands stay as they are. *)
Definition AddProduct_generic : M Frame unit :=
  s <- get_frame ;;
  let a_temp := arg_a s in
  let b_temp := arg_b s in
  let c_temp := arg_c s in
  record_call (CallPadAxes (pattern (arg_a s)) (pattern (arg_b s)) (pattern (arg_c s))) ;;
  record_call (CallCompressPatterns (pattern a_temp) (pattern b_temp) (pattern c_temp)).

(** Lines 353-414: everything after the test of line 346. *)
Definition AddProduct_dispatch : M Frame unit :=
  s <- get_frame ;;
  CheckDeviceAndDtype (arg_a s) (arg_b s) (arg_c s) ;;
  let combined_code :=
    CombineCodes3 (code (pattern (arg_a s))) (code (pattern (arg_b s)))
                  (code (pattern (arg_c s))) in
  if is_case combined_code [0x000000000] then run_kernel AddProductScalar3
  else if is_case combined_code [0x101000101] then run_kernel AddProductVecScalarVec
  else if is_case combined_code [0x101101101] then run_kernel AddProductVec3
  else if is_case combined_code [0x103101202] then run_kernel AddProductMatVecVec
  else if is_case combined_code [0x203101202] then run_kernel AddProductTmatVecVec
  else if is_case combined_code [0x202101103] then run_kernel AddProductVec2Mat
  else AddProduct_generic.

(** Lines 343-414.  The recursion of line 349 is not on a smaller argument;
    it is justified by [swap_pending], which the exchange takes from 1 to
    0. *)
Equations? AddProduct (alpha beta : float) (a b c : TensorImpl) (log : list Call)
  : Outcome Frame unit by wf (swap_pending a b) lt :=
AddProduct alpha beta a b c log
  with inspect (code (pattern a) <? code (pattern b)) := {
  | exist _ true Hlt =>
      exchange (AddProduct alpha beta b a c (log ++ [CallAddProduct a b]))
  | exist _ false Hge =>
      AddProduct_dispatch (mkFrame a b c (log ++ [CallAddProduct a b])) }.
Proof.
  unfold swap_pending. rewrite Hlt.
  apply Z.ltb_lt in Hlt.
  destruct (Z.ltb_spec (code (pattern b)) (code (pattern a))); lia.
Qed.

End ProductDriver.

(* ===================================================================== *)
(** * The dispatch tables, read off the switches                        *)
(* ===================================================================== *)

(** Lines 84-106: the case groups of the CPU switch whose body constructs
    one op and breaks, each with the template it instantiates. *)
Definition cpu_single_op_cases : list (list Z * OpName) :=
  [ ([0x000000], ScalarPlusEqScalarCpuOp);
    ([0x101101; 0x001001; 0x101001; 0x001101], StvectorPlusEqStvectorCpuOp);
    ([0x000101; 0x000001], ScalarPlusEqStvectorCpuOp);
    ([0x101000; 0x001000], StvectorPlusEqScalarCpuOp) ].

(** Lines 290-312: the same for the switch of AssignOp::Expand. *)
Definition assign_single_op_cases : list (list Z * OpName) :=
  [ ([0x000000], ScalarPlusEqScalarOp);
    ([0x101101; 0x001001; 0x101001; 0x001101], StvectorPlusEqStvectorOp);
    ([0x000101; 0x000001], ScalarPlusEqStvectorOp);
    ([0x101000; 0x001000], StvectorPlusEqScalarOp) ].

(** The labels of the switch of lines 289-337. *)
Definition assign_case_labels : list Z :=
  [0x000000; 0x101101; 0x001001; 0x101001; 0x001101; 0x000101; 0x000001;
   0x101000; 0x001000; 0x000103].

(** Lines 367-396: each label of the switch of AddProduct with the kernel
    it calls. *)
Definition product_cases : list (Z * ProductKernel) :=
  [ (0x000000000, AddProductScalar3);
    (0x101000101, AddProductVecScalarVec);
    (0x101101101, AddProductVec3);
    (0x103101202, AddProductMatVecVec);
    (0x203101202, AddProductTmatVecVec);
    (0x202101103, AddProductVec2Mat) ].

Definition is_kernel_call (k : Call) : bool :=
  match k with
  | CallKernel _ _ _ _ => true
  | _ => false
  end.

(** The test of line 240: [ReferenceMode() && a_.DeviceType() == kCpuDevice]. *)
Definition reference_on_cpu (ReferenceMode : bool) (a_ : Tensor) : bool :=
  ReferenceMode && (if DeviceType_eq_dec (GetDeviceType a_) kCpuDevice then true else false).

(** An outcome of the product driver, with [log] put before its calls. *)
Definition prepend_calls (log : list Call) (o : Outcome Frame unit) : Outcome Frame unit :=
  match o with
  | Returned x s => Returned x (mkFrame (arg_a s) (arg_b s) (arg_c s) (log ++ calls s))
  | Fatal e s => Fatal e (mkFrame (arg_a s) (arg_b s) (arg_c s) (log ++ calls s))
  end.

(** Two outcomes that both return, or both stop on the same error. *)
Definition same_ending {S A : Type} (o o' : Outcome S A) : Prop :=
  match o, o' with
  | Returned _ _, Returned _ _ => True
  | Fatal e _, Fatal e' _ => e = e'
  | _, _ => False
  end.

(** [s'] is [s] with ops appended to the plan and tensors added to the
    temporaries, and nothing taken away. *)
Definition extends (s s' : Plan) : Prop :=
  exists (l : list Op) (t : list Tensor),
    ops s' = ops s ++ l /\ temporaries s' = temporaries s ++ t.

(** An action that only ever appends, whether it returns or not. *)
Definition appends_only {A : Type} (m : Expansion A) : Prop :=
  forall s : Plan, extends s (final_state (m s)).

(* ===================================================================== *)
(** * A concrete tensor library, to run the drivers on operands         *)
(* ===================================================================== *)

Module Fixture.

(** Modelled from the spec: pattern codes are computed outside the sources.
    The legend of lines 61-76 and the labels of the switches determine them on
    the patterns used below: bit [i] of the low byte is set when raxis [i] has
    dim > 1; bits 8-10 hold 1 + the raxis whose stride is 1, or 0 when there is
    none; bit 11 marks a negative stride.  So () is 0x000, (X) is 0x101, (x)
    is 0x001, (xX) is 0x103, (Xx) is 0x203 and (X1) is 0x202. *)
Fixpoint nontrivial_bits (raxis : Z) (ds : list Z) : Z :=
  match ds with
  | [] => 0
  | d :: rest =>
      Z.lor (if d =? 1 then 0 else Z.shiftl 1 raxis) (nontrivial_bits (raxis + 1) rest)
  end.

Fixpoint unit_stride_slot (raxis : Z) (ss : list Z) : Z :=
  match ss with
  | [] => 0
  | s :: rest => if s =? 1 then raxis + 1 else unit_stride_slot (raxis + 1) rest
  end.

Definition ComputePatternCode (ds ss : list Z) : Z :=
  Z.lor (Z.lor (nontrivial_bits 0 ds) (Z.shiftl (unit_stride_slot 0 ss) 8))
        (if existsb (fun s => s <? 0) ss then 0x800 else 0).

Definition pat (ds ss : list Z) : Pattern :=
  mkPattern (Z.of_nat (length ds)) ds ss (ComputePatternCode ds ss).

(** Modelled from the spec: the Tensor constructor and the squeeze functions
    belong to the tensor container.  A newly constructed tensor is packed: by
    raxis, a trivial axis gets stride 0, another one the number of elements
    below it.  Squeezing drops one axis of the pattern and keeps the data. *)
Fixpoint packed_strides (below : Z) (ds : list Z) : list Z :=
  match ds with
  | [] => []
  | d :: rest => (if d =? 1 then 0 else below) :: packed_strides (below * d) rest
  end.

Fixpoint remove_at {A} (n : nat) (l : list A) : list A :=
  match n, l with
  | _, [] => []
  | O, _ :: rest => rest
  | S m, x :: rest => x :: remove_at m rest
  end.

Definition drop_raxis (t : Tensor) (raxis : nat) : Tensor :=
  WithPattern t (pat (remove_at raxis (dims (GetPattern t)))
                     (remove_at raxis (strides (GetPattern t)))).

(** The storage of a tensor made by [NewTensor]; the operands used below
    have other ones. *)
Definition fresh_storage : Z := 1000.

#[local] Instance lib : TensorLib := {|
  ReducePatterns := fun p q => (p, q);
  NormalizePatterns := fun p q => (p, q);
  GetCode := code;
  NewTensor := fun ds dt dev =>
    mkTensor (mkImpl (pat (rev ds) (packed_strides 1 (rev ds))) dt dev fresh_storage);
  SqueezeR := fun t raxis => drop_raxis t (Z.to_nat raxis);
  Squeeze := fun t axis =>
    drop_raxis t (length (dims (GetPattern t)) - 1 - Z.to_nat axis)%nat
|}.

Definition cpu : Device := mkDevice kCpuDevice 0.
Definition gpu : Device := mkDevice kCuda 0.

Definition tensor (ds ss : list Z) (dt : DataType) (dev : Device) (st : Z) : Tensor :=
  mkTensor (mkImpl (pat ds ss) dt dev st).

(** A scalar, a vector of 5 elements, one of 4, and a 3 x 4 matrix whose
    rows are 5 elements apart (raxis 0 has dim 4 and stride 1, raxis 1 has
    dim 3 and stride 5), so that its two axes cannot be merged into one.
    The reducers of [lib] return the patterns they are given; the operand
    pairs used below have nothing to reduce: no two adjacent axes that merge
    in both operands, no axis that is trivial in both. *)
Definition scalar (dt : DataType) (dev : Device) (st : Z) : Tensor := tensor [] [] dt dev st.
Definition vector5 (dt : DataType) (dev : Device) (st : Z) : Tensor := tensor [5] [1] dt dev st.
Definition vector4 (dt : DataType) (dev : Device) (st : Z) : Tensor := tensor [4] [1] dt dev st.
Definition matrix34 (dt : DataType) (dev : Device) (st : Z) : Tensor :=
  tensor [4; 3] [1; 5] dt dev st.

End Fixture.

Import Fixture.

(* ===================================================================== *)
(** * Properties of the accumulate driver                               *)
(* ===================================================================== *)

Ltac run_expansion :=
  unfold bind, ret, KALDI_ERR, KALDI_ASSERT, set_new_op, push_back_new_op,
    construct_Tensor, SET_TO_TEMPLATED_CPU_OP_ALL, SET_TO_TEMPLATED_OP_ALL,
    SET_TO_TEMPLATED_OP_REAL, SET_TO_TEMPLATED_OP_REAL_DEV,
    SET_TO_TEMPLATED_OP_ALLPAIRS; simpl.

(** Rewrapping an operand changes its pattern only. *)
Lemma reduced_a_same_tensor (L : TensorLib) reduce (a_ b_ : Tensor) :
  Dtype (reduced_a reduce a_ b_) = Dtype a_
  /\ GetDevice (reduced_a reduce a_ b_) = GetDevice a_
  /\ storage (Impl (reduced_a reduce a_ b_)) = storage (Impl a_).
Proof.
  unfold reduced_a, reduced_views.
  destruct (reduce (GetPattern a_) (GetPattern b_)) as [pa pb].
  destruct (Pattern_eq_dec pa (GetPattern a_)); simpl; auto.
Qed.

Lemma reduced_b_same_tensor (L : TensorLib) reduce (a_ b_ : Tensor) :
  Dtype (reduced_b reduce a_ b_) = Dtype b_
  /\ GetDevice (reduced_b reduce a_ b_) = GetDevice b_
  /\ storage (Impl (reduced_b reduce a_ b_)) = storage (Impl b_).
Proof.
  unfold reduced_b, reduced_views.
  destruct (reduce (GetPattern a_) (GetPattern b_)) as [pa pb].
  destruct (Pattern_eq_dec pb (GetPattern b_)); simpl; auto.
Qed.

Lemma reduced_views_eta (L : TensorLib) reduce (a_ b_ : Tensor) :
  reduced_views reduce a_ b_
  = (reduced_a reduce a_ b_, reduced_b reduce a_ b_, reduced_code reduce a_ b_).
Proof.
  unfold reduced_a, reduced_b, reduced_code.
  destruct (reduced_views reduce a_ b_) as [[a b] c]. reflexivity.
Qed.

Lemma reduced_a_device_type (L : TensorLib) reduce (a_ b_ : Tensor) :
  GetDeviceType (reduced_a reduce a_ b_) = GetDeviceType a_.
Proof.
  pose proof (reduced_a_same_tensor L reduce a_ b_) as (_ & Hd & _).
  unfold GetDeviceType, GetDevice in *. now rewrite Hd.
Qed.

(** A code that is none of the labels of a list is none of the labels of a
    part of it. *)
Lemma is_case_outside (c : Z) (labels group : list Z) :
  ~ In c labels -> incl group labels -> is_case c group = false.
Proof.
  intros Hout Hincl. unfold is_case.
  destruct (existsb (Z.eqb c) group) eqn:E; [ | reflexivity ].
  apply existsb_exists in E. destruct E as (x & Hin & Heq).
  apply Z.eqb_eq in Heq. subst x. exfalso. apply Hout, Hincl, Hin.
Qed.

Lemma is_case_true (c : Z) (labels : list Z) :
  is_case c labels = true -> In c labels.
Proof.
  unfold is_case. intros E. apply existsb_exists in E.
  destruct E as (x & Hin & Heq). apply Z.eqb_eq in Heq. now subst x.
Qed.

(** The CPU path of PlusEqOp::Expand outside reference mode, once the
    reduction is named. *)
Lemma PlusEqOp_Expand_cpu (L : TensorLib) (HAVE_CUDA : bool) (a_ b_ : Tensor) :
  GetDeviceType a_ = kCpuDevice ->
  PlusEqOp_Expand false HAVE_CUDA a_ b_
  = (PlusEq_cpu_switch a_ b_ (reduced_a ReducePatterns a_ b_)
       (reduced_b ReducePatterns a_ b_) (reduced_code ReducePatterns a_ b_)
     ;; push_back_new_op).
Proof.
  intros Hcpu. unfold PlusEqOp_Expand, PlusEqOp_ExpandCpu.
  destruct (DeviceType_eq_dec (GetDeviceType a_) kCpuDevice) as [_ | n]; [ | easy ].
  rewrite reduced_views_eta. reflexivity.
Qed.


(** C1.  On the CPU, outside reference mode, when the reduced combined code
    is 0x000103 (scalar += matrix), PlusEqOp::Expand returns after appending
    exactly two ops, in this order: ColVectorEqMatrixCpuOp(temp, b), where
    temp is the tensor constructed with shape {num_rows, 1}, num_rows =
    b.Pattern().dims[1], and the element type and device of the target; then
    ScalarPlusEqStvectorCpuOp(a, SqueezeR(temp, 0)).  The one tensor
    constructed is temp. *)
Theorem scalar_plus_eq_matrix_two_ops :
  forall (L : TensorLib) (HAVE_CUDA : bool) (a_ b_ : Tensor) (s : Plan),
    GetDeviceType a_ = kCpuDevice ->
    reduced_code ReducePatterns a_ b_ = 0x000103 ->
    let a := reduced_a ReducePatterns a_ b_ in
    let b := reduced_b ReducePatterns a_ b_ in
    let temp := NewTensor [dim_at (GetPattern b) 1; 1] (Dtype a_) (GetDevice a_) in
    let op1 := mkOp ColVectorEqMatrixCpuOp [Dtype a_] None [temp; b] in
    let op2 := mkOp ScalarPlusEqStvectorCpuOp [Dtype a_] None [a; SqueezeR temp 0] in
    PlusEqOp_Expand false HAVE_CUDA a_ b_ s
    = Returned tt (mkPlan (Some op2) (ops s ++ [op1; op2]) (temporaries s ++ [temp])).
Proof.
  intros L HAVE_CUDA a_ b_ s Hcpu Hcode a b temp op1 op2.
  rewrite PlusEqOp_Expand_cpu by assumption.
  rewrite Hcode. unfold PlusEq_cpu_switch.
  change (is_case 259 [0]) with false.
  change (is_case 259 [1052929; 4097; 1052673; 4353]) with false.
  change (is_case 259 [257; 1]) with false.
  change (is_case 259 [1052672; 4096]) with false.
  change (is_case 259 [259]) with true.
  cbv iota.
  destruct (reduced_a_same_tensor L ReducePatterns a_ b_) as (Hd & Hdev & _).
  fold a b. fold a in Hd, Hdev. rewrite Hd, Hdev.
  run_expansion.
  subst op1 op2 temp. rewrite <- app_assoc. reflexivity.
Qed.

(** A float scalar on the CPU accumulating a 3 x 4 float matrix whose rows
    are 5 elements apart. *)
Lemma scalar_plus_eq_matrix_two_ops_witness :
  PlusEqOp_Expand (L := lib) false false
    (scalar kFloatDtype cpu 1) (matrix34 kFloatDtype cpu 2) (enter [])
  = Returned tt
      (let temp := tensor [1; 3] [0; 1] kFloatDtype cpu fresh_storage in
       let op1 := mkOp ColVectorEqMatrixCpuOp [kFloatDtype] None
                       [temp; matrix34 kFloatDtype cpu 2] in
       let op2 := mkOp ScalarPlusEqStvectorCpuOp [kFloatDtype] None
                       [scalar kFloatDtype cpu 1;
                        tensor [3] [1] kFloatDtype cpu fresh_storage] in
       mkPlan (Some op2) [op1; op2] [temp]).
Proof.
  exact (scalar_plus_eq_matrix_two_ops lib false
           (scalar kFloatDtype cpu 1) (matrix34 kFloatDtype cpu 2) (enter [])
           eq_refl eq_refl).
Defined.



(** C4, on the code.  On the CPU, outside reference mode, with a float or
    double target, when the reduced combined code is 0x101103 or 0x001103
    (vector += matrix), the op that PlusEqOp::Expand appends is the reference
    op PlusEqRefCpuOp on the operands as given: the StvectorPlusEqMatrix op
    constructed at line 132 is replaced, before anything is appended, by the
    assignment under [default:], since there is no [break] between them. *)
Theorem vector_plus_eq_matrix_runs_into_default :
  forall (L : TensorLib) (HAVE_CUDA : bool) (a_ b_ : Tensor) (s : Plan),
    GetDeviceType a_ = kCpuDevice ->
    is_real (Dtype a_) = true ->
    In (reduced_code ReducePatterns a_ b_) [0x101103; 0x001103] ->
    let ref := mkOp PlusEqRefCpuOp [Dtype a_] None [a_; b_] in
    PlusEqOp_Expand false HAVE_CUDA a_ b_ s
    = Returned tt (mkPlan (Some ref) (ops s ++ [ref]) (temporaries s))
    /\ op_name ref <> StvectorPlusEqMatrix.
Proof.
  intros L HAVE_CUDA a_ b_ s Hcpu Hreal Hcode ref.
  split; [ | discriminate ].
  rewrite PlusEqOp_Expand_cpu by assumption.
  unfold PlusEq_cpu_switch.
  destruct Hcode as [E | [E | []]]; rewrite <- E; unfold is_case; simpl;
    run_expansion; reflexivity.
Qed.

(** A float vector of 4 elements accumulating a 3 x 4 float matrix: combined
    code 0x101103. *)
Lemma vector_plus_eq_matrix_runs_into_default_witness :
  let a_ := vector4 kFloatDtype cpu 1 in
  let b_ := matrix34 kFloatDtype cpu 2 in
  let ref := mkOp PlusEqRefCpuOp [kFloatDtype] None [a_; b_] in
  PlusEqOp_Expand (L := lib) false false a_ b_ (enter [])
  = Returned tt (mkPlan (Some ref) [ref] [])
  /\ op_name ref <> StvectorPlusEqMatrix.
Proof.
  exact (vector_plus_eq_matrix_runs_into_default lib false
           (vector4 kFloatDtype cpu 1) (matrix34 kFloatDtype cpu 2) (enter [])
           eq_refl eq_refl (or_introl eq_refl)).
Defined.




(** C6.  In reference mode, PlusEqOp::Expand on a CPU target returns after
    appending exactly one op, the reference op PlusEqRefOp on the operands as
    given, whatever their patterns and whatever the pattern reduction and the
    codes would have been (the result is the same under any other tensor
    library).  On an accelerator target the mode is not looked at: both
    PlusEqOp::Expand and AssignOp::Expand behave in reference mode as they do
    outside it. *)
Theorem reference_mode_only_on_cpu :
  forall (L : TensorLib) (HAVE_CUDA : bool) (a_ b_ g_ h_ : Tensor) (s : Plan),
    GetDeviceType a_ = kCpuDevice ->
    GetDeviceType g_ = kCuda ->
    let ref := mkOp PlusEqRefOp [Dtype a_] None [a_; b_] in
    PlusEqOp_Expand true HAVE_CUDA a_ b_ s
    = Returned tt (mkPlan (Some ref) (ops s ++ [ref]) (temporaries s))
    /\ (forall L' : TensorLib,
          PlusEqOp_Expand (L := L') true HAVE_CUDA a_ b_ s
          = PlusEqOp_Expand (L := L) true HAVE_CUDA a_ b_ s)
    /\ PlusEqOp_Expand true HAVE_CUDA g_ h_ s = PlusEqOp_Expand false HAVE_CUDA g_ h_ s
    /\ AssignOp_Expand true g_ h_ s = AssignOp_Expand false g_ h_ s.
Proof.
  intros L HAVE_CUDA a_ b_ g_ h_ s Hcpu Hgpu ref.
  assert (Href : forall L' : TensorLib,
             PlusEqOp_Expand (L := L') true HAVE_CUDA a_ b_ s
             = Returned tt (mkPlan (Some ref) (ops s ++ [ref]) (temporaries s))).
  { intros L'. unfold PlusEqOp_Expand, PlusEqOp_ExpandCpu.
    destruct (DeviceType_eq_dec (GetDeviceType a_) kCpuDevice) as [_ | n]; [ | easy ].
    reflexivity. }
  split; [ apply Href | ].
  split; [ intros L'; now rewrite !Href | ].
  split.
  - unfold PlusEqOp_Expand.
    destruct (DeviceType_eq_dec (GetDeviceType g_) kCpuDevice) as [e | _];
      [ congruence | reflexivity ].
  - unfold AssignOp_Expand.
    destruct (DeviceType_eq_dec (GetDeviceType g_) kCpuDevice) as [e | _];
      [ congruence | reflexivity ].
Qed.

(** ExpandCpu itself tests the mode before anything else (line 33) and
    never the device: it is PlusEqOp::Expand that enters it for CPU targets
    only (line 27). *)
Lemma ExpandCpu_reference_mode_ignores_device (L : TensorLib)
    (a_ b_ : Tensor) (s : Plan) :
  PlusEqOp_ExpandCpu true a_ b_ s
  = Returned tt
      (let ref := mkOp PlusEqRefOp [Dtype a_] None [a_; b_] in
       mkPlan (Some ref) (ops s ++ [ref]) (temporaries s)).
Proof. reflexivity. Qed.

(** A CPU vector accumulating a CPU matrix, and the same on the
    accelerator. *)
Lemma reference_mode_only_on_cpu_witness :
  let a_ := vector4 kFloatDtype cpu 1 in
  let b_ := matrix34 kFloatDtype cpu 2 in
  let g_ := vector4 kFloatDtype gpu 3 in
  let h_ := matrix34 kFloatDtype gpu 4 in
  let ref := mkOp PlusEqRefOp [kFloatDtype] None [a_; b_] in
  PlusEqOp_Expand (L := lib) true true a_ b_ (enter [])
  = Returned tt (mkPlan (Some ref) [ref] [])
  /\ (forall L' : TensorLib,
        PlusEqOp_Expand (L := L') true true a_ b_ (enter [])
        = PlusEqOp_Expand (L := lib) true true a_ b_ (enter []))
  /\ PlusEqOp_Expand (L := lib) true true g_ h_ (enter [])
     = PlusEqOp_Expand (L := lib) false true g_ h_ (enter [])
  /\ AssignOp_Expand (L := lib) true g_ h_ (enter [])
     = AssignOp_Expand (L := lib) false g_ h_ (enter []).
Proof.
  exact (reference_mode_only_on_cpu lib true
           (vector4 kFloatDtype cpu 1) (matrix34 kFloatDtype cpu 2)
           (vector4 kFloatDtype gpu 3) (matrix34 kFloatDtype gpu 4) (enter [])
           eq_refl eq_refl).
Defined.



(** The text of lines 140-198, which no function enters, reads the same
    way on these two points: its [switch (dtype)] ends in the "Unexpected
    dtype" error for every element type, int32 included; and its accelerator
    part, without the backend, is the configuration error. *)
Lemma text_after_the_switch (L : TensorLib) (a_ b_ : Tensor) (d : DataType)
    (c : Z) (s : Plan) :
  (exists s', PlusEq_cpu_other_dtype a_ b_ d s = Fatal (ErrUnexpectedDtype d) s'
              /\ ops s' = ops s)
  /\ (GetDeviceType a_ = kCuda ->
      PlusEq_cuda_branch false a_ b_ c s = Fatal ErrNotCompiledForCuda s).
Proof.
  split.
  - destruct d; eexists; (split; [ reflexivity | reflexivity ]).
  - intros Hgpu. unfold PlusEq_cuda_branch. rewrite Hgpu. reflexivity.
Qed.

(* ===================================================================== *)
(** * Properties of the assign driver                                   *)
(* ===================================================================== *)


(** C5.  When the two operands of an assign request are on different
    devices, AssignOp::Expand is fatal, whether the element types differ
    ("cross-device copying combined with type conversion") or not
    ("cross-device copying"), and the plan is exactly as it was on entry: no
    op was constructed, none was appended. *)
Theorem cross_device_assign_is_fatal :
  forall (L : TensorLib) (ReferenceMode : bool) (a_ b_ : Tensor) (s : Plan),
    GetDevice a_ <> GetDevice b_ ->
    AssignOp_Expand ReferenceMode a_ b_ s
    = Fatal (if DataType_eq_dec (Dtype a_) (Dtype b_)
             then ErrCrossDevice else ErrCrossDeviceTypeConversion) s.
Proof.
  intros L ReferenceMode a_ b_ s Hdev. unfold AssignOp_Expand.
  destruct (DataType_eq_dec (Dtype a_) (Dtype b_));
    destruct (Device_eq_dec (GetDevice a_) (GetDevice b_)); try contradiction;
    reflexivity.
Qed.

(** A vector on the accelerator assigned from a vector on the CPU, with the
    same element type. *)
Lemma cross_device_assign_is_fatal_witness :
  AssignOp_Expand (L := lib) false
    (vector5 kFloatDtype gpu 1) (vector5 kFloatDtype cpu 2) (enter [])
  = Fatal ErrCrossDevice (enter []).
Proof.
  refine (cross_device_assign_is_fatal lib false
            (vector5 kFloatDtype gpu 1) (vector5 kFloatDtype cpu 2) (enter []) _).
  discriminate.
Defined.

(** The same with a double source: the first of the two tests fires. *)
Lemma cross_device_assign_with_conversion :
  AssignOp_Expand (L := lib) true
    (vector5 kFloatDtype gpu 1) (vector5 kDoubleDtype cpu 2) (enter [])
  = Fatal ErrCrossDeviceTypeConversion (enter []).
Proof. reflexivity. Qed.

(* ===================================================================== *)
(** * Nothing is ever taken out of the plan                             *)
(* ===================================================================== *)

Lemma extends_refl (s : Plan) : extends s s.
Proof. exists [], []. now rewrite !app_nil_r. Qed.

Lemma extends_trans (s1 s2 s3 : Plan) :
  extends s1 s2 -> extends s2 s3 -> extends s1 s3.
Proof.
  intros (l & t & Hl & Ht) (l' & t' & Hl' & Ht').
  exists (l ++ l'), (t ++ t'). rewrite Hl', Ht', Hl, Ht, !app_assoc. auto.
Qed.

Lemma appends_only_ret {A} (x : A) : appends_only (ret x).
Proof. intros s. apply extends_refl. Qed.

Lemma appends_only_err {A} (e : Error) : appends_only (@KALDI_ERR Plan A e).
Proof. intros s. apply extends_refl. Qed.

Lemma appends_only_bind {A B} (m : Expansion A) (k : A -> Expansion B) :
  appends_only m -> (forall x, appends_only (k x)) -> appends_only (bind m k).
Proof.
  intros Hm Hk s. unfold bind. specialize (Hm s).
  destruct (m s) as [x s' | e s']; simpl in *; [ | assumption ].
  eapply extends_trans; [ exact Hm | apply Hk ].
Qed.

Lemma appends_only_assert (c : bool) : appends_only (@KALDI_ASSERT Plan c).
Proof. destruct c; [ apply appends_only_ret | apply appends_only_err ]. Qed.

Lemma appends_only_set_new_op (o : Op) : appends_only (set_new_op o).
Proof. intros s. exists [], []. simpl. now rewrite !app_nil_r. Qed.

Lemma appends_only_push_back : appends_only push_back_new_op.
Proof.
  intros s. unfold push_back_new_op.
  destruct (new_op s) as [o | ]; simpl; [ | apply extends_refl ].
  exists [o], []. simpl. now rewrite app_nil_r.
Qed.

Lemma appends_only_construct (L : TensorLib) ds dt dev :
  appends_only (construct_Tensor ds dt dev).
Proof.
  intros s. exists [], [NewTensor ds dt dev]. simpl. now rewrite app_nil_r.
Qed.

Create HintDb appends discriminated.
#[local] Hint Resolve appends_only_ret appends_only_err appends_only_assert
  appends_only_set_new_op appends_only_push_back appends_only_construct : appends.

Ltac appends_step :=
  match goal with
  | |- appends_only (bind _ _) => apply appends_only_bind; [ | intros ]
  | |- appends_only (if ?c then _ else _) => destruct c
  | |- appends_only (match ?d with _ => _ end) => destruct d
  | |- appends_only (SET_TO_TEMPLATED_CPU_OP_ALL _ _ _) => apply appends_only_set_new_op
  | |- appends_only (SET_TO_TEMPLATED_OP_ALL _ _ _) => apply appends_only_set_new_op
  | |- appends_only (SET_TO_TEMPLATED_OP_REAL _ _ _) => apply appends_only_set_new_op
  | |- appends_only (SET_TO_TEMPLATED_OP_REAL_DEV _ _ _ _) => apply appends_only_set_new_op
  | |- appends_only (SET_TO_TEMPLATED_OP_ALLPAIRS _ _ _ _) => apply appends_only_set_new_op
  | |- appends_only _ => solve [ auto with appends ]
  end.

(** The three binary drivers are built from actions that only append. *)
Lemma binary_drivers_append (L : TensorLib) (ReferenceMode HAVE_CUDA : bool)
    (a_ b_ : Tensor) :
  appends_only (PlusEqOp_Expand ReferenceMode HAVE_CUDA a_ b_)
  /\ appends_only (PlusEqOp_ExpandCpu ReferenceMode a_ b_)
  /\ appends_only (AssignOp_Expand ReferenceMode a_ b_).
Proof.
  assert (Hcpu : appends_only (PlusEqOp_ExpandCpu ReferenceMode a_ b_)).
  { unfold PlusEqOp_ExpandCpu. rewrite reduced_views_eta.
    unfold PlusEq_cpu_switch. repeat appends_step. }
  split; [ | split; [ exact Hcpu | ] ].
  - unfold PlusEqOp_Expand, PlusEqOp_ExpandCuda. rewrite reduced_views_eta.
    unfold PlusEq_accelerator_dispatch.
    destruct (DeviceType_eq_dec _ _); [ exact Hcpu | repeat appends_step ].
  - unfold AssignOp_Expand. rewrite reduced_views_eta. unfold Assign_switch.
    repeat appends_step.
Qed.

(* ===================================================================== *)
(** * Properties of the product driver                                  *)
(* ===================================================================== *)

Lemma AddProduct_cases (float : Type) (alpha beta : float)
    (a b c : TensorImpl) (log : list Call) :
  AddProduct alpha beta a b c log
  = if code (pattern a) <? code (pattern b)
    then exchange (AddProduct_dispatch
                     (mkFrame b a c (log ++ [CallAddProduct a b; CallAddProduct b a])))
    else AddProduct_dispatch (mkFrame a b c (log ++ [CallAddProduct a b])).
Proof.
  simp AddProduct.
  generalize (inspect (code (pattern a) <? code (pattern b))).
  intros [[] Hab]; symmetry; etransitivity;
    [ rewrite Hab; reflexivity | symmetry; cbn | rewrite Hab; reflexivity | reflexivity ].
  simp AddProduct.
  generalize (inspect (code (pattern b) <? code (pattern a))).
  intros [[] Hba]; cbn.
  - apply Z.ltb_lt in Hab. apply Z.ltb_lt in Hba. lia.
  - rewrite <- app_assoc. reflexivity.
Qed.

Lemma entries_app (l l' : list Call) : entries (l ++ l') = (entries l + entries l')%nat.
Proof. unfold entries. now rewrite filter_app, length_app. Qed.

Lemma entries_snoc (l : list Call) (k : Call) :
  entries (l ++ [k]) = (entries l + if is_entry k then 1 else 0)%nat.
Proof. rewrite entries_app. unfold entries. simpl. now destruct (is_entry k). Qed.

Ltac run_product :=
  unfold bind, ret, KALDI_ERR, get_frame, record_call, run_kernel; simpl.

(** Everything after the test of line 346 runs without entering AddProduct
    again. *)
Lemma AddProduct_dispatch_entries (s : Frame) :
  entries (calls (final_state (AddProduct_dispatch s))) = entries (calls s).
Proof.
  unfold AddProduct_dispatch, AddProduct_generic, CheckDeviceAndDtype. run_product.
  destruct (_ && _); run_product; [ | reflexivity ].
  repeat (match goal with
          | |- context [if is_case ?c ?l then _ else _] => destruct (is_case c l)
          end; [ simpl; rewrite entries_snoc; simpl; lia | ]).
  simpl. rewrite !entries_snoc. simpl. lia.
Qed.

Lemma exchange_calls (o : Outcome Frame unit) :
  calls (final_state (exchange o)) = calls (final_state o).
Proof. destruct o; reflexivity. Qed.

(** C2.  AddProduct is a total function of its arguments.  When the code of
    [a] is less than the code of [b] it enters itself once more, with [a] and
    [b] exchanged, and that second entry goes straight to the dispatch; when
    it is not, the first entry does.  In either case the test of line 346
    cannot succeed both for (a, b) and for (b, a), and the number of entries
    into AddProduct is 1 plus the one exchange, if any. *)
Theorem AddProduct_exchanges_at_most_once :
  forall (L : TensorLib) (float : Type) (alpha beta : float)
         (a b c : TensorImpl) (log : list Call),
    AddProduct alpha beta a b c log
    = (if code (pattern a) <? code (pattern b)
       then exchange (AddProduct_dispatch
                        (mkFrame b a c (log ++ [CallAddProduct a b; CallAddProduct b a])))
       else AddProduct_dispatch (mkFrame a b c (log ++ [CallAddProduct a b])))
    /\ (swap_pending a b + swap_pending b a <= 1)%nat
    /\ entries (calls (final_state (AddProduct alpha beta a b c log)))
       = (entries log + 1 + swap_pending a b)%nat.
Proof.
  intros L float alpha beta a b c log.
  split; [ apply AddProduct_cases | ].
  split.
  - unfold swap_pending.
    destruct (Z.ltb_spec (code (pattern a)) (code (pattern b)));
      destruct (Z.ltb_spec (code (pattern b)) (code (pattern a))); simpl; lia.
  - rewrite AddProduct_cases. unfold swap_pending.
    destruct (code (pattern a) <? code (pattern b)).
    + rewrite exchange_calls, AddProduct_dispatch_entries. simpl.
      change [CallAddProduct a b; CallAddProduct b a]
        with ([CallAddProduct a b] ++ [CallAddProduct b a]).
      rewrite app_assoc, !entries_snoc. simpl. lia.
    + rewrite AddProduct_dispatch_entries. simpl.
      rewrite entries_snoc. simpl. lia.
Qed.

(** The run of the dispatch on operands that pass the check of line 353 and
    whose combined code is none of the labels. *)
Lemma AddProduct_dispatch_unlisted (x y c : TensorImpl) (log : list Call) :
  device x = device y -> device x = device c ->
  dtype x = dtype y -> dtype x = dtype c ->
  ~ In (CombineCodes3 (code (pattern x)) (code (pattern y)) (code (pattern c)))
       product_case_labels ->
  AddProduct_dispatch (mkFrame x y c log)
  = Returned tt
      (mkFrame x y c
         (log ++ [CallPadAxes (pattern x) (pattern y) (pattern c)]
              ++ [CallCompressPatterns (pattern x) (pattern y) (pattern c)])).
Proof.
  intros Hd1 Hd2 Ht1 Ht2 Hout.
  unfold AddProduct_dispatch, AddProduct_generic, CheckDeviceAndDtype. run_product.
  rewrite <- Hd1, <- Hd2, <- Ht1, <- Ht2.
  destruct (Device_eq_dec (device x) (device x)); [ | congruence ].
  destruct (DataType_eq_dec (dtype x) (dtype x)); [ | congruence ].
  simpl. run_product.
  repeat (rewrite (is_case_outside _ Hout)
            by (intros z Hz; simpl in Hz; unfold product_case_labels; simpl; tauto)).
  run_product. rewrite <- app_assoc. reflexivity.
Qed.

(** C8, on the code.  When the three operands agree on device and element
    type and the combined code of the operands, taken in the order in which
    the dispatch receives them, is none of the six labels, AddProduct
    returns after exactly two further calls, PadAxes and then
    CompressPatterns; no kernel is called, the reference one no more than
    another. *)
Theorem unlisted_product_pads_and_compresses :
  forall (L : TensorLib) (float : Type) (alpha beta : float)
         (a b c : TensorImpl) (log : list Call),
    device a = device b -> device a = device c ->
    dtype a = dtype b -> dtype a = dtype c ->
    let exchanged := code (pattern a) <? code (pattern b) in
    let x := if exchanged then b else a in
    let y := if exchanged then a else b in
    ~ In (CombineCodes3 (code (pattern x)) (code (pattern y)) (code (pattern c)))
         product_case_labels ->
    exists s' : Frame,
      AddProduct alpha beta a b c log = Returned tt s'
      /\ calls s'
         = log ++ [CallAddProduct a b]
               ++ (if exchanged then [CallAddProduct b a] else [])
               ++ [CallPadAxes (pattern x) (pattern y) (pattern c);
                   CallCompressPatterns (pattern x) (pattern y) (pattern c)].
Proof.
  intros L float alpha beta a b c log Hd1 Hd2 Ht1 Ht2 exchanged x y Hout.
  rewrite AddProduct_cases. subst x y exchanged.
  destruct (code (pattern a) <? code (pattern b)).
  - rewrite AddProduct_dispatch_unlisted; try congruence.
    eexists. split; [ reflexivity | ]. simpl.
    rewrite <- !app_assoc. reflexivity.
  - rewrite AddProduct_dispatch_unlisted; try congruence.
    eexists. split; [ reflexivity | ]. simpl.
    rewrite <- !app_assoc. reflexivity.
Qed.

(** A float vector of 4 elements times a 3 x 4 float matrix into a scalar:
    the codes are 0x101, 0x103 and 0x000, so the operands are exchanged and
    the combined code is 0x103101000. *)
Lemma unlisted_product_pads_and_compresses_witness :
  let a := Impl (vector4 kFloatDtype cpu 1) in
  let b := Impl (matrix34 kFloatDtype cpu 2) in
  let c := Impl (scalar kFloatDtype cpu 3) in
  exists s' : Frame,
    AddProduct (float := Z) 1 1 a b c [] = Returned tt s'
    /\ calls s'
       = [CallAddProduct a b; CallAddProduct b a;
          CallPadAxes (pattern b) (pattern a) (pattern c);
          CallCompressPatterns (pattern b) (pattern a) (pattern c)].
Proof.
  refine (unlisted_product_pads_and_compresses lib (float := Z) 1 1
            (Impl (vector4 kFloatDtype cpu 1)) (Impl (matrix34 kFloatDtype cpu 2))
            (Impl (scalar kFloatDtype cpu 3)) []
            eq_refl eq_refl eq_refl eq_refl _).
  vm_compute. intuition discriminate.
Defined.




(* ===================================================================== *)
(** * Further properties: the combined code                             *)
(* ===================================================================== *)

Lemma CombineCodes_high (a b : Z) :
  0 <= b < 4096 -> Z.shiftr (CombineCodes a b) 12 = a.
Proof.
  intros Hb. unfold CombineCodes.
  rewrite Z.shiftr_lor, Z.shiftr_shiftl_l by lia.
  rewrite Z.shiftr_div_pow2 by lia.
  change (2 ^ 12) with 4096. rewrite (Z.div_small b) by lia.
  rewrite Z.lor_0_r. apply Z.shiftl_0_r.
Qed.

Lemma CombineCodes_low (a b : Z) :
  0 <= b < 4096 -> Z.land (CombineCodes a b) 4095 = b.
Proof.
  intros Hb. unfold CombineCodes.
  change 4095 with (Z.ones 12).
  rewrite Z.land_ones by lia.
  rewrite <- Z.land_ones by lia.
  rewrite Z.land_lor_distr_l.
  rewrite !Z.land_ones by lia.
  rewrite Z.shiftl_mul_pow2 by lia.
  rewrite Z.mod_mul by lia.
  change (2 ^ 12) with 4096. rewrite Z.mod_small by lia.
  apply Z.lor_0_l.
Qed.

(** X3.  The combined code keeps the operand codes apart: when the codes
    after the first are 12-bit chunks, two requests have the same combined
    code only if they agree code by code, for two operands (0xAAABBB) and
    for three (0xAAABBBCCC).  In particular exchanging two operands with
    different codes changes the combined code. *)
Theorem CombineCodes_separates_operands :
  forall a b c a' b' c' : Z,
    0 <= b < 4096 -> 0 <= b' < 4096 -> 0 <= c < 4096 -> 0 <= c' < 4096 ->
    (CombineCodes a b = CombineCodes a' b' -> a = a' /\ b = b')
    /\ (CombineCodes3 a b c = CombineCodes3 a' b' c' -> a = a' /\ b = b' /\ c = c')
    /\ (0 <= a < 4096 -> a <> b -> CombineCodes a b <> CombineCodes b a).
Proof.
  intros a b c a' b' c' Hb Hb' Hc Hc'.
  assert (H2 : forall x y x' y', 0 <= y < 4096 -> 0 <= y' < 4096 ->
                 CombineCodes x y = CombineCodes x' y' -> x = x' /\ y = y').
  { intros x y x' y' Hy Hy' E. split.
    - rewrite <- (CombineCodes_high x Hy), <- (CombineCodes_high x' Hy'). now rewrite E.
    - rewrite <- (CombineCodes_low x Hy), <- (CombineCodes_low x' Hy'). now rewrite E. }
  split; [ apply H2; assumption | ].
  split.
  - intros E. change (CombineCodes3 a b c) with (CombineCodes (CombineCodes a b) c) in E.
    change (CombineCodes3 a' b' c') with (CombineCodes (CombineCodes a' b') c') in E.
    apply H2 in E; try assumption. destruct E as [E1 E2].
    apply H2 in E1; try assumption. tauto.
  - intros Ha Hab E. apply H2 in E; try assumption. tauto.
Qed.

(** A scalar and a contiguous vector against two other code pairs. *)
Lemma CombineCodes_separates_operands_witness :
  (CombineCodes 0x000 0x101 = CombineCodes 0x000 0x101 -> 0x000 = 0x000 /\ 0x101 = 0x101)
  /\ (CombineCodes3 0x000 0x101 0x103 = CombineCodes3 0x000 0x101 0x103 ->
      0x000 = 0x000 /\ 0x101 = 0x101 /\ 0x103 = 0x103)
  /\ (0 <= 0x000 < 4096 -> 0x000 <> 0x101 ->
      CombineCodes 0x000 0x101 <> CombineCodes 0x101 0x000).
Proof.
  apply (@CombineCodes_separates_operands 0x000 0x101 0x103 0x000 0x101 0x103); lia.
Defined.


(* ===================================================================== *)
(** * Further properties of the accumulate driver                       *)
(* ===================================================================== *)

(** X4.  On the CPU, outside reference mode, with a float or double target,
    each of the scalar and vector cases of lines 84-106 makes
    PlusEqOp::Expand return after appending exactly one op: the template of
    that case group, at the target's element type, on the two reduced views.
    No tensor is constructed. *)
Theorem cpu_fast_path_appends_one_op :
  forall (L : TensorLib) (HAVE_CUDA : bool) (a_ b_ : Tensor) (s : Plan)
         (labels : list Z) (kernel : OpName),
    GetDeviceType a_ = kCpuDevice ->
    is_real (Dtype a_) = true ->
    In (labels, kernel) cpu_single_op_cases ->
    In (reduced_code ReducePatterns a_ b_) labels ->
    let op := mkOp kernel [Dtype a_] None
                [reduced_a ReducePatterns a_ b_; reduced_b ReducePatterns a_ b_] in
    PlusEqOp_Expand false HAVE_CUDA a_ b_ s
    = Returned tt (mkPlan (Some op) (ops s ++ [op]) (temporaries s)).
Proof.
  intros L HAVE_CUDA a_ b_ s labels kernel Hcpu Hreal Htable Hcode op.
  rewrite PlusEqOp_Expand_cpu by assumption.
  unfold PlusEq_cpu_switch.
  destruct (reduced_a_same_tensor L ReducePatterns a_ b_) as (Hd & _).
  subst op.
  unfold cpu_single_op_cases in Htable. simpl in Htable.
  repeat match goal with
         | H : _ \/ _ |- _ => destruct H
         | H : (_, _) = (_, _) |- _ => inversion H; clear H; subst labels kernel
         | H : False |- _ => destruct H
         end;
    simpl in Hcode;
    repeat match goal with
           | H : _ \/ _ |- _ => destruct H
           | H : False |- _ => destruct H
           end;
    match goal with
    | H : _ = reduced_code _ _ _ |- _ => rewrite <- H
    end;
    unfold is_case; simpl; run_expansion; rewrite Hd; reflexivity.
Qed.

(** A float scalar on the CPU accumulating a contiguous float vector of 5
    elements (combined code 0x000101): the scalar-from-vector reduction. *)
Lemma cpu_fast_path_appends_one_op_witness :
  let a_ := scalar kFloatDtype cpu 1 in
  let b_ := vector5 kFloatDtype cpu 2 in
  let op := mkOp ScalarPlusEqStvectorCpuOp [kFloatDtype] None [a_; b_] in
  PlusEqOp_Expand (L := lib) false false a_ b_ (enter [])
  = Returned tt (mkPlan (Some op) [op] []).
Proof.
  exact (@cpu_fast_path_appends_one_op lib false
           (scalar kFloatDtype cpu 1) (vector5 kFloatDtype cpu 2) (enter [])
           [0x000101; 0x000001] ScalarPlusEqStvectorCpuOp
           eq_refl eq_refl
           (or_intror (or_intror (or_introl eq_refl)))
           (or_introl eq_refl)).
Defined.




(** X7.  Whatever the operands, the mode and the build, and whether they
    return or stop on a fatal error, PlusEqOp::Expand, PlusEqOp::ExpandCpu and
    AssignOp::Expand leave the ops that were in the plan where they were:
    the plan they leave is the one they found with ops appended at the end,
    and the tensors they constructed are added to those already there. *)
Theorem binary_drivers_only_append :
  forall (L : TensorLib) (ReferenceMode HAVE_CUDA : bool) (a_ b_ : Tensor),
    appends_only (PlusEqOp_Expand ReferenceMode HAVE_CUDA a_ b_)
    /\ appends_only (PlusEqOp_ExpandCpu ReferenceMode a_ b_)
    /\ appends_only (AssignOp_Expand ReferenceMode a_ b_).
Proof.
  intros L ReferenceMode HAVE_CUDA a_ b_. apply binary_drivers_append.
Qed.

(* ===================================================================== *)
(** * Further properties of the assign driver                           *)
(* ===================================================================== *)

(** AssignOp::Expand on operands of one device and one element type, when
    the reference branch of line 240 is not taken. *)
Lemma AssignOp_Expand_dispatch (L : TensorLib) (ReferenceMode : bool) (a_ b_ : Tensor) :
  GetDevice a_ = GetDevice b_ ->
  Dtype a_ = Dtype b_ ->
  reference_on_cpu ReferenceMode a_ = false ->
  AssignOp_Expand ReferenceMode a_ b_
  = (Assign_switch (reduced_a NormalizePatterns a_ b_) (reduced_b NormalizePatterns a_ b_)
       (reduced_code NormalizePatterns a_ b_) ;; push_back_new_op).
Proof.
  intros Hdev Hty Href. unfold AssignOp_Expand, Compatible.
  unfold reference_on_cpu in Href. rewrite Href.
  rewrite reduced_views_eta.
  destruct (DataType_eq_dec (Dtype a_) (Dtype b_)); [ | contradiction ].
  destruct (Device_eq_dec (GetDevice a_) (GetDevice b_)); [ | contradiction ].
  reflexivity.
Qed.

(** The reference branch of lines 240-248. *)
Lemma assign_reference_mode_on_cpu_aux (L : TensorLib) (a_ b_ : Tensor) (s : Plan) :
  GetDevice a_ = GetDevice b_ ->
  GetDeviceType a_ = kCpuDevice ->
  AssignOp_Expand true a_ b_ s
  = Returned tt
      (mkPlan (Some (mkOp AssignRefOp [Dtype a_; Dtype b_] None [a_; b_]))
              (ops s ++ [mkOp AssignRefOp [Dtype a_; Dtype b_] None [a_; b_]])
              (temporaries s)).
Proof.
  intros Hdev Hcpu. unfold AssignOp_Expand.
  destruct (Device_eq_dec (GetDevice a_) (GetDevice b_)); [ | contradiction ].
  destruct (DeviceType_eq_dec (GetDeviceType a_) kCpuDevice); [ | contradiction ].
  destruct (DataType_eq_dec (Dtype a_) (Dtype b_)); reflexivity.
Qed.

(** X8.  In reference mode, with both operands on one CPU device,
    AssignOp::Expand returns after appending exactly one op, the reference op
    AssignRefOp instantiated at the element types of target and source, in
    this order, on the operands as given; the two element types may
    differ, and the patterns are not looked at. *)
Theorem assign_reference_mode_on_cpu :
  forall (L : TensorLib) (a_ b_ : Tensor) (s : Plan),
    GetDevice a_ = GetDevice b_ ->
    GetDeviceType a_ = kCpuDevice ->
    let ref := mkOp AssignRefOp [Dtype a_; Dtype b_] None [a_; b_] in
    AssignOp_Expand true a_ b_ s
    = Returned tt (mkPlan (Some ref) (ops s ++ [ref]) (temporaries s)).
Proof.
  intros L a_ b_ s Hdev Hcpu ref.
  apply assign_reference_mode_on_cpu_aux; assumption.
Qed.

(** A float vector assigned from a double matrix, both on the CPU. *)
Lemma assign_reference_mode_on_cpu_witness :
  let a_ := vector5 kFloatDtype cpu 1 in
  let b_ := matrix34 kDoubleDtype cpu 2 in
  let ref := mkOp AssignRefOp [kFloatDtype; kDoubleDtype] None [a_; b_] in
  AssignOp_Expand (L := lib) true a_ b_ (enter [])
  = Returned tt (mkPlan (Some ref) [ref] []).
Proof.
  exact (@assign_reference_mode_on_cpu lib
           (vector5 kFloatDtype cpu 1) (matrix34 kDoubleDtype cpu 2) (enter [])
           eq_refl eq_refl).
Defined.

(** X9.  Outside the reference branch (reference mode off, or the target on
    the accelerator), operands of one device but of different element types
    stop AssignOp::Expand at the assertion of line 255, with the plan exactly
    as it was on entry. *)
Theorem assign_mixed_types_fail_the_assertion :
  forall (L : TensorLib) (ReferenceMode : bool) (a_ b_ : Tensor) (s : Plan),
    GetDevice a_ = GetDevice b_ ->
    Dtype a_ <> Dtype b_ ->
    reference_on_cpu ReferenceMode a_ = false ->
    AssignOp_Expand ReferenceMode a_ b_ s = Fatal ErrAssertFailed s.
Proof.
  intros L ReferenceMode a_ b_ s Hdev Hty Href.
  unfold AssignOp_Expand, Compatible.
  unfold reference_on_cpu in Href. rewrite Href.
  rewrite reduced_views_eta.
  destruct (DataType_eq_dec (Dtype a_) (Dtype b_)); [ contradiction | ].
  destruct (Device_eq_dec (GetDevice a_) (GetDevice b_)); [ | contradiction ].
  reflexivity.
Qed.

(** A float vector assigned from a double vector on the accelerator, in
    reference mode. *)
Lemma assign_mixed_types_fail_the_assertion_witness :
  AssignOp_Expand (L := lib) true
    (vector5 kFloatDtype gpu 1) (vector5 kDoubleDtype gpu 2) (enter [])
  = Fatal ErrAssertFailed (enter []).
Proof.
  refine (@assign_mixed_types_fail_the_assertion lib true
            (vector5 kFloatDtype gpu 1) (vector5 kDoubleDtype gpu 2) (enter [])
            eq_refl _ eq_refl).
  discriminate.
Defined.

(** X10.  Outside the reference branch, with operands of one device and one
    float or double element type, each of the scalar and vector cases of
    lines 290-312 makes AssignOp::Expand return after appending exactly one
    op: the template of that case group, at the target's element type and
    for the target's device type, on the two views with normalized
    patterns. *)
Theorem assign_fast_path_appends_one_op :
  forall (L : TensorLib) (ReferenceMode : bool) (a_ b_ : Tensor) (s : Plan)
         (labels : list Z) (kernel : OpName),
    GetDevice a_ = GetDevice b_ ->
    Dtype a_ = Dtype b_ ->
    is_real (Dtype a_) = true ->
    reference_on_cpu ReferenceMode a_ = false ->
    In (labels, kernel) assign_single_op_cases ->
    In (reduced_code NormalizePatterns a_ b_) labels ->
    let op := mkOp kernel [Dtype a_] (Some (GetDeviceType a_))
                [reduced_a NormalizePatterns a_ b_; reduced_b NormalizePatterns a_ b_] in
    AssignOp_Expand ReferenceMode a_ b_ s
    = Returned tt (mkPlan (Some op) (ops s ++ [op]) (temporaries s)).
Proof.
  intros L ReferenceMode a_ b_ s labels kernel Hdev Hty Hreal Href Htable Hcode op.
  rewrite AssignOp_Expand_dispatch by assumption.
  unfold Assign_switch.
  destruct (reduced_a_same_tensor L NormalizePatterns a_ b_) as (Hd & _).
  rewrite reduced_a_device_type.
  subst op.
  unfold assign_single_op_cases in Htable. simpl in Htable.
  repeat match goal with
         | H : _ \/ _ |- _ => destruct H
         | H : (_, _) = (_, _) |- _ => inversion H; clear H; subst labels kernel
         | H : False |- _ => destruct H
         end;
    simpl in Hcode;
    repeat match goal with
           | H : _ \/ _ |- _ => destruct H
           | H : False |- _ => destruct H
           end;
    match goal with
    | H : _ = reduced_code _ _ _ |- _ => rewrite <- H
    end;
    unfold is_case; simpl; run_expansion; rewrite Hd; reflexivity.
Qed.

(** A contiguous float vector of 5 elements assigned from another one, on
    the CPU (combined code 0x101101): the vector-to-vector op. *)
Lemma assign_fast_path_appends_one_op_witness :
  let a_ := vector5 kFloatDtype cpu 1 in
  let b_ := vector5 kFloatDtype cpu 2 in
  let op := mkOp StvectorPlusEqStvectorOp [kFloatDtype] (Some kCpuDevice) [a_; b_] in
  AssignOp_Expand (L := lib) false a_ b_ (enter [])
  = Returned tt (mkPlan (Some op) [op] []).
Proof.
  exact (@assign_fast_path_appends_one_op lib false
           (vector5 kFloatDtype cpu 1) (vector5 kFloatDtype cpu 2) (enter [])
           [0x101101; 0x001001; 0x101001; 0x001101] StvectorPlusEqStvectorOp
           eq_refl eq_refl eq_refl eq_refl
           (or_intror (or_introl eq_refl))
           (or_introl eq_refl)).
Defined.

(** X11.  Outside the reference branch, with operands of one device and one
    element type (any element type), a combined code that is none of the
    labels of the switch of lines 289-337 makes AssignOp::Expand fatal with
    "Unhandled code", reporting that code, with the plan exactly as it was
    on entry.  The vector = matrix codes 0x101103 and 0x001103 are among
    those: the assign switch has no case for them. *)
Theorem assign_unlisted_code_is_fatal :
  forall (L : TensorLib) (ReferenceMode : bool) (a_ b_ : Tensor) (s : Plan),
    GetDevice a_ = GetDevice b_ ->
    Dtype a_ = Dtype b_ ->
    reference_on_cpu ReferenceMode a_ = false ->
    ~ In (reduced_code NormalizePatterns a_ b_) assign_case_labels ->
    AssignOp_Expand ReferenceMode a_ b_ s
    = Fatal (ErrUnhandledCode (reduced_code NormalizePatterns a_ b_)) s
    /\ ~ In 0x101103 assign_case_labels /\ ~ In 0x001103 assign_case_labels.
Proof.
  intros L ReferenceMode a_ b_ s Hdev Hty Href Hout.
  split; [ | split; vm_compute; intuition discriminate ].
  rewrite AssignOp_Expand_dispatch by assumption.
  unfold Assign_switch.
  repeat (rewrite (is_case_outside _ Hout)
            by (intros x Hx; simpl in Hx; unfold assign_case_labels; simpl; tauto)).
  reflexivity.
Qed.

(** An int32 vector of 4 elements assigned from an int32 3 x 4 matrix on
    the CPU: combined code 0x101103. *)
Lemma assign_unlisted_code_is_fatal_witness :
  AssignOp_Expand (L := lib) false
    (vector4 kInt32Dtype cpu 1) (matrix34 kInt32Dtype cpu 2) (enter [])
  = Fatal (ErrUnhandledCode 0x101103) (enter [])
  /\ ~ In 0x101103 assign_case_labels /\ ~ In 0x001103 assign_case_labels.
Proof.
  refine (@assign_unlisted_code_is_fatal lib false
            (vector4 kInt32Dtype cpu 1) (matrix34 kInt32Dtype cpu 2) (enter [])
            eq_refl eq_refl eq_refl _).
  vm_compute. intuition discriminate.
Defined.

(** X12.  Outside the reference branch, with operands of one device and one
    float or double element type, the scalar = matrix code 0x000103 makes
    AssignOp::Expand fatal with "Unhandled code": the case block of lines
    314-330 does not break, and runs into [default:].  By then the temporary
    has been constructed and the first op, ColVectorEqMatrixOp(temp, b), has
    been appended to the plan; the second op has been constructed and is not
    appended. *)
Theorem assign_scalar_from_matrix_is_fatal_after_one_op :
  forall (L : TensorLib) (ReferenceMode : bool) (a_ b_ : Tensor) (s : Plan),
    GetDevice a_ = GetDevice b_ ->
    Dtype a_ = Dtype b_ ->
    is_real (Dtype a_) = true ->
    reference_on_cpu ReferenceMode a_ = false ->
    reduced_code NormalizePatterns a_ b_ = 0x000103 ->
    let a := reduced_a NormalizePatterns a_ b_ in
    let b := reduced_b NormalizePatterns a_ b_ in
    let temp := NewTensor [dim_at (GetPattern b) 1; 1] (Dtype a_) (GetDevice a_) in
    let op1 := mkOp ColVectorEqMatrixOp [Dtype a_] (Some (GetDeviceType a_)) [temp; b] in
    let op2 := mkOp ScalarPlusEqStvectorOp [Dtype a_] (Some (GetDeviceType a_))
                 [a; Squeeze temp 0] in
    AssignOp_Expand ReferenceMode a_ b_ s
    = Fatal (ErrUnhandledCode 0x000103)
        (mkPlan (Some op2) (ops s ++ [op1]) (temporaries s ++ [temp])).
Proof.
  intros L ReferenceMode a_ b_ s Hdev Hty Hreal Href Hcode a b temp op1 op2.
  rewrite AssignOp_Expand_dispatch by assumption.
  rewrite Hcode. unfold Assign_switch.
  destruct (reduced_a_same_tensor L NormalizePatterns a_ b_) as (Hd & Hdv & _).
  rewrite reduced_a_device_type.
  fold a b. fold a in Hd, Hdv. rewrite Hd, Hdv.
  unfold is_case. simpl. run_expansion.
  reflexivity.
Qed.

(** A float scalar assigned from a 3 x 4 float matrix on the CPU. *)
Lemma assign_scalar_from_matrix_is_fatal_after_one_op_witness :
  let a_ := scalar kFloatDtype cpu 1 in
  let b_ := matrix34 kFloatDtype cpu 2 in
  let temp := tensor [1; 3] [0; 1] kFloatDtype cpu fresh_storage in
  let op1 := mkOp ColVectorEqMatrixOp [kFloatDtype] (Some kCpuDevice) [temp; b_] in
  let op2 := mkOp ScalarPlusEqStvectorOp [kFloatDtype] (Some kCpuDevice)
               [a_; @Squeeze lib temp 0] in
  AssignOp_Expand (L := lib) false a_ b_ (enter [])
  = Fatal (ErrUnhandledCode 0x000103) (mkPlan (Some op2) [op1] [temp]).
Proof.
  exact (@assign_scalar_from_matrix_is_fatal_after_one_op lib false
           (scalar kFloatDtype cpu 1) (matrix34 kFloatDtype cpu 2) (enter [])
           eq_refl eq_refl eq_refl eq_refl eq_refl).
Defined.


(** X13.  Whenever AssignOp::Expand returns, the two operands are on one
    device, exactly one op has been appended, [new_op] is that op, it is
    instantiated at the target's element type first, and no tensor has been
    constructed.  Unless the reference branch was taken, the operands then
    also have one element type, the combined code is one of the scalar and
    vector labels, and the op is bound to the target's device type. *)
Theorem assign_returns_with_exactly_one_op :
  forall (L : TensorLib) (ReferenceMode : bool) (a_ b_ : Tensor) (s s' : Plan),
    AssignOp_Expand ReferenceMode a_ b_ s = Returned tt s' ->
    GetDevice a_ = GetDevice b_
    /\ exists o : Op,
         s' = mkPlan (Some o) (ops s ++ [o]) (temporaries s)
         /\ hd_error (op_types o) = Some (Dtype a_)
         /\ (reference_on_cpu ReferenceMode a_ = false ->
             Dtype a_ = Dtype b_
             /\ In (reduced_code NormalizePatterns a_ b_) assign_case_labels
             /\ reduced_code NormalizePatterns a_ b_ <> 0x000103
             /\ op_device o = Some (GetDeviceType a_)).
Proof.
  intros L ReferenceMode a_ b_ s s' Hret.
  destruct (Device_eq_dec (GetDevice a_) (GetDevice b_)) as [Hdev | Hdev].
  2: { unfold AssignOp_Expand in Hret.
       destruct (DataType_eq_dec (Dtype a_) (Dtype b_));
         destruct (Device_eq_dec (GetDevice a_) (GetDevice b_));
         try contradiction; discriminate Hret. }
  split; [ exact Hdev | ].
  destruct (reference_on_cpu ReferenceMode a_) eqn:Href.
  - unfold reference_on_cpu in Href. apply andb_prop in Href.
    destruct Href as [Hmode Hcpu]. subst ReferenceMode.
    destruct (DeviceType_eq_dec (GetDeviceType a_) kCpuDevice) as [Hcpu' | ];
      [ | discriminate Hcpu ].
    rewrite (assign_reference_mode_on_cpu_aux L a_ b_ s Hdev Hcpu') in Hret.
    inversion Hret; subst s'. eexists. split; [ reflexivity | ].
    split; [ reflexivity | intros E; discriminate E ].
  - destruct (DataType_eq_dec (Dtype a_) (Dtype b_)) as [Hty | Hty].
    2: { unfold AssignOp_Expand, Compatible in Hret.
         unfold reference_on_cpu in Href. rewrite Href in Hret.
         rewrite reduced_views_eta in Hret.
         destruct (DataType_eq_dec (Dtype a_) (Dtype b_)); [ contradiction | ].
         destruct (Device_eq_dec (GetDevice a_) (GetDevice b_)); [ | contradiction ].
         discriminate Hret. }
    rewrite AssignOp_Expand_dispatch in Hret by assumption.
    unfold Assign_switch in Hret.
    destruct (reduced_a_same_tensor L NormalizePatterns a_ b_) as (Hd & _).
    rewrite reduced_a_device_type, Hd in Hret.
    repeat match type of Hret with
           | context [if is_case ?c ?l then _ else _] =>
               destruct (is_case c l) eqn:?
           end;
      revert Hret; run_expansion; intros Hret;
      try discriminate Hret;
      inversion Hret; subst s'; eexists; (split; [ reflexivity | ]);
      (split; [ reflexivity | ]); intros _;
      repeat match goal with
             | H : is_case _ _ = true |- _ => apply is_case_true in H; simpl in H
             end;
      repeat split; auto;
      try (unfold assign_case_labels; simpl; tauto);
      intros E;
      match goal with
      | H : _ \/ _ |- _ => rewrite E in H; intuition discriminate
      end.
Qed.

(** A contiguous float vector assigned from another one on the CPU. *)
Lemma assign_returns_with_exactly_one_op_witness :
  let a_ := vector5 kFloatDtype cpu 1 in
  let b_ := vector5 kFloatDtype cpu 2 in
  let s' := final_state (AssignOp_Expand (L := lib) false a_ b_ (enter [])) in
  GetDevice a_ = GetDevice b_
  /\ exists o : Op,
       s' = mkPlan (Some o) ([] ++ [o]) []
       /\ hd_error (op_types o) = Some kFloatDtype
       /\ (reference_on_cpu false a_ = false ->
           Dtype a_ = Dtype b_
           /\ In (reduced_code (L := lib) (@NormalizePatterns lib) a_ b_) assign_case_labels
           /\ reduced_code (L := lib) (@NormalizePatterns lib) a_ b_ <> 0x000103
           /\ op_device o = Some kCpuDevice).
Proof.
  exact (@assign_returns_with_exactly_one_op lib false
           (vector5 kFloatDtype cpu 1) (vector5 kFloatDtype cpu 2) (enter [])
           (final_state (AssignOp_Expand (L := lib) false
                           (vector5 kFloatDtype cpu 1) (vector5 kFloatDtype cpu 2)
                           (enter [])))
           eq_refl).
Defined.

(* ===================================================================== *)
(** * Further properties of the product driver                          *)
(* ===================================================================== *)

(** The dispatch appends to the calls made so far and never reads them. *)
Lemma AddProduct_dispatch_prepend (x y c : TensorImpl) (log : list Call) :
  AddProduct_dispatch (mkFrame x y c log)
  = prepend_calls log (AddProduct_dispatch (mkFrame x y c [])).
Proof.
  unfold AddProduct_dispatch, AddProduct_generic, CheckDeviceAndDtype. run_product.
  destruct (_ && _); run_product; [ | now rewrite app_nil_r ].
  repeat (match goal with
          | |- context [if is_case ?k ?l then _ else _] => destruct (is_case k l)
          end; [ reflexivity | ]).
  simpl. now rewrite <- app_assoc.
Qed.

(** What the dispatch does on operands that pass the check and whose
    combined code is one of the labels. *)
Lemma AddProduct_dispatch_listed (x y c : TensorImpl) (log : list Call)
    (label : Z) (kernel : ProductKernel) :
  device x = device y -> device x = device c ->
  dtype x = dtype y -> dtype x = dtype c ->
  In (label, kernel) product_cases ->
  CombineCodes3 (code (pattern x)) (code (pattern y)) (code (pattern c)) = label ->
  AddProduct_dispatch (mkFrame x y c log)
  = Returned tt (mkFrame x y c (log ++ [CallKernel kernel x y c])).
Proof.
  intros Hd1 Hd2 Ht1 Ht2 Htable Hcode.
  unfold AddProduct_dispatch, CheckDeviceAndDtype. run_product.
  rewrite <- Hd1, <- Hd2, <- Ht1, <- Ht2.
  destruct (Device_eq_dec (device x) (device x)); [ | congruence ].
  destruct (DataType_eq_dec (dtype x) (dtype x)); [ | congruence ].
  simpl. run_product. rewrite Hcode.
  unfold product_cases in Htable. simpl in Htable.
  repeat match goal with
         | H : _ \/ _ |- _ => destruct H
         | H : (_, _) = (_, _) |- _ => inversion H; clear H
         | H : False |- _ => destruct H
         end; reflexivity.
Qed.

(** X14.  When the three operands agree on device and element type and the
    combined code of the operands, taken with the operand of larger code
    first, is one of the six labels of lines 367-396, AddProduct returns
    after calling exactly the kernel of that label, once, on the operands in
    that order; the operands come back as they were given. *)
Theorem listed_product_calls_its_kernel_once :
  forall (L : TensorLib) (float : Type) (alpha beta : float)
         (a b c : TensorImpl) (log : list Call) (label : Z) (kernel : ProductKernel),
    device a = device b -> device a = device c ->
    dtype a = dtype b -> dtype a = dtype c ->
    In (label, kernel) product_cases ->
    let exchanged := code (pattern a) <? code (pattern b) in
    let x := if exchanged then b else a in
    let y := if exchanged then a else b in
    CombineCodes3 (code (pattern x)) (code (pattern y)) (code (pattern c)) = label ->
    AddProduct alpha beta a b c log
    = Returned tt
        (mkFrame a b c
           (log ++ [CallAddProduct a b]
                ++ (if exchanged then [CallAddProduct b a] else [])
                ++ [CallKernel kernel x y c])).
Proof.
  intros L float alpha beta a b c log label kernel Hd1 Hd2 Ht1 Ht2 Htable
         exchanged x y Hcode.
  rewrite AddProduct_cases. subst x y exchanged.
  destruct (code (pattern a) <? code (pattern b)).
  - rewrite (AddProduct_dispatch_listed b a c _ (label := label) (kernel := kernel));
      try congruence.
    simpl. unfold exchange_frame. simpl. now rewrite <- !app_assoc.
  - rewrite (AddProduct_dispatch_listed a b c _ (label := label) (kernel := kernel));
      try congruence.
    simpl. now rewrite <- !app_assoc.
Qed.

(** A contiguous float vector of 4 elements times a 3 x 4 float matrix
    into a column of 3: the codes are 0x101, 0x103 and 0x202, the operands
    are exchanged, and the matrix-vector kernel gets the matrix first. *)
Lemma listed_product_calls_its_kernel_once_witness :
  let a := Impl (vector4 kFloatDtype cpu 1) in
  let b := Impl (matrix34 kFloatDtype cpu 2) in
  let c := Impl (tensor [1; 3] [0; 1] kFloatDtype cpu 3) in
  AddProduct (float := Z) 1 1 a b c []
  = Returned tt
      (mkFrame a b c
         [CallAddProduct a b; CallAddProduct b a; CallKernel AddProductMatVecVec b a c]).
Proof.
  exact (@listed_product_calls_its_kernel_once lib Z 1 1
           (Impl (vector4 kFloatDtype cpu 1)) (Impl (matrix34 kFloatDtype cpu 2))
           (Impl (tensor [1; 3] [0; 1] kFloatDtype cpu 3)) []
           0x103101202 AddProductMatVecVec
           eq_refl eq_refl eq_refl eq_refl
           (or_intror (or_intror (or_intror (or_introl eq_refl))))
           eq_refl).
Defined.

(** What the dispatch can add to the calls: nothing (failed check), one
    kernel call on the operands as it received them, under the label of
    their combined code, or the two calls of the generic path. *)
Lemma AddProduct_dispatch_calls (x y c : TensorImpl) (log : list Call) :
  exists added : list Call,
    calls (final_state (AddProduct_dispatch (mkFrame x y c log))) = log ++ added
    /\ (added = []
        \/ (exists k, added = [CallKernel k x y c]
                      /\ In (CombineCodes3 (code (pattern x)) (code (pattern y))
                                           (code (pattern c)), k) product_cases)
        \/ added = [CallPadAxes (pattern x) (pattern y) (pattern c);
                    CallCompressPatterns (pattern x) (pattern y) (pattern c)]).
Proof.
  unfold AddProduct_dispatch, AddProduct_generic, CheckDeviceAndDtype. run_product.
  destruct (_ && _); run_product;
    [ | exists []; split; [ now rewrite app_nil_r | auto ] ].
  repeat (match goal with
          | |- context [if is_case ?k ?l then _ else _] =>
              destruct (is_case k l) eqn:?
          end;
          [ match goal with
            | H : is_case _ _ = true |- _ =>
                apply is_case_true in H; simpl in H; destruct H as [H | []]
            end;
            eexists; split; [ reflexivity | ];
            right; left; eexists; split; [ reflexivity | ];
            match goal with
            | H : _ = CombineCodes3 _ _ _ |- _ => rewrite <- H
            end;
            unfold product_cases; simpl; tauto
          | ]).
  simpl. eexists. split; [ now rewrite <- app_assoc | ]. right; right. reflexivity.
Qed.

(** X15.  Whatever the operands, AddProduct calls at most one kernel, and a
    kernel it calls receives the output operand [c] last and the two inputs
    with the one of larger (or equal) code first, under the label of the
    combined code of the operands in that order. *)
Theorem product_kernel_gets_larger_code_first :
  forall (L : TensorLib) (float : Type) (alpha beta : float)
         (a b c : TensorImpl) (log : list Call),
    exists added : list Call,
      calls (final_state (AddProduct alpha beta a b c log)) = log ++ added
      /\ (length (filter is_kernel_call added) <= 1)%nat
      /\ forall k u v w,
           In (CallKernel k u v w) added ->
           code (pattern v) <= code (pattern u)
           /\ w = c
           /\ ((u = a /\ v = b) \/ (u = b /\ v = a))
           /\ In (CombineCodes3 (code (pattern u)) (code (pattern v)) (code (pattern w)), k)
                 product_cases.
Proof.
  intros L float alpha beta a b c log.
  rewrite AddProduct_cases.
  destruct (Z.ltb_spec (code (pattern a)) (code (pattern b))) as [Hlt | Hge].
  - rewrite exchange_calls.
    destruct (AddProduct_dispatch_calls b a c
                (log ++ [CallAddProduct a b; CallAddProduct b a]))
      as (added & Hcalls & Hshape).
    exists ([CallAddProduct a b; CallAddProduct b a] ++ added).
    split; [ now rewrite Hcalls, <- app_assoc | ].
    destruct Hshape as [E | [(k & E & Hk) | E]]; subst added; simpl;
      (split; [ lia | ]); intros k' u v w Hin; simpl in Hin;
      repeat match goal with
             | H : _ \/ _ |- _ => destruct H
             | H : False |- _ => destruct H
             end;
      try discriminate.
    match goal with
    | H : CallKernel _ _ _ _ = CallKernel _ _ _ _ |- _ => inversion H; subst
    end.
    repeat split; auto; lia.
  - destruct (AddProduct_dispatch_calls a b c (log ++ [CallAddProduct a b]))
      as (added & Hcalls & Hshape).
    exists ([CallAddProduct a b] ++ added).
    split; [ now rewrite Hcalls, <- app_assoc | ].
    destruct Hshape as [E | [(k & E & Hk) | E]]; subst added; simpl;
      (split; [ lia | ]); intros k' u v w Hin; simpl in Hin;
      repeat match goal with
             | H : _ \/ _ |- _ => destruct H
             | H : False |- _ => destruct H
             end;
      try discriminate.
    match goal with
    | H : CallKernel _ _ _ _ = CallKernel _ _ _ _ |- _ => inversion H; subst
    end.
    repeat split; auto; lia.
Qed.

Lemma not_entry_filter_prepend (log : list Call) (o : Outcome Frame unit) :
  filter (fun k => negb (is_entry k)) (calls (final_state (prepend_calls log o)))
  = filter (fun k => negb (is_entry k)) log
    ++ filter (fun k => negb (is_entry k)) (calls (final_state o)).
Proof. destruct o; simpl; apply filter_app. Qed.

(** X16.  The order in which two inputs of different codes are given does
    not matter: AddProduct(a, b, c) and AddProduct(b, a, c) end the same way
    (both return, or both stop on the same error), make the same calls to
    kernels, PadAxes and CompressPatterns with the same arguments, and leave
    each operand in the same state. *)
Theorem product_does_not_depend_on_input_order :
  forall (L : TensorLib) (float : Type) (alpha beta : float)
         (a b c : TensorImpl) (log : list Call),
    code (pattern a) <> code (pattern b) ->
    let r := AddProduct alpha beta a b c log in
    let r' := AddProduct alpha beta b a c log in
    same_ending r r'
    /\ filter (fun k => negb (is_entry k)) (calls (final_state r))
       = filter (fun k => negb (is_entry k)) (calls (final_state r'))
    /\ arg_a (final_state r) = arg_b (final_state r')
    /\ arg_b (final_state r) = arg_a (final_state r')
    /\ arg_c (final_state r) = arg_c (final_state r').
Proof.
  assert (Hhalf : forall (L : TensorLib) (float : Type) (alpha beta : float)
                         (a b c : TensorImpl) (log : list Call),
             code (pattern a) < code (pattern b) ->
             let r := AddProduct alpha beta a b c log in
             let r' := AddProduct alpha beta b a c log in
             same_ending r r'
             /\ filter (fun k => negb (is_entry k)) (calls (final_state r))
                = filter (fun k => negb (is_entry k)) (calls (final_state r'))
             /\ arg_a (final_state r) = arg_b (final_state r')
             /\ arg_b (final_state r) = arg_a (final_state r')
             /\ arg_c (final_state r) = arg_c (final_state r')).
  { intros L float alpha beta a b c log Hlt r r'. subst r r'.
    rewrite !AddProduct_cases.
    destruct (Z.ltb_spec (code (pattern a)) (code (pattern b))); [ | lia ].
    destruct (Z.ltb_spec (code (pattern b)) (code (pattern a))); [ lia | ].
    rewrite (AddProduct_dispatch_prepend b a c (log ++ _)).
    rewrite (AddProduct_dispatch_prepend b a c (log ++ [CallAddProduct b a])).
    destruct (AddProduct_dispatch (mkFrame b a c [])) as [[] fr | e fr]; simpl;
      rewrite !filter_app; simpl; auto. }
  intros L float alpha beta a b c log Hne r r'.
  destruct (Z.lt_total (code (pattern a)) (code (pattern b))) as [Hlt | [Heq | Hgt]].
  - apply (Hhalf L). exact Hlt.
  - contradiction.
  - destruct (Hhalf L float alpha beta b a c log Hgt) as (H1 & H2 & H3 & H4 & H5).
    subst r r'. repeat split; auto.
    destruct (AddProduct alpha beta b a c log), (AddProduct alpha beta a b c log);
      simpl in *; auto.
Qed.

(** A vector and a matrix, in the two orders. *)
Lemma product_does_not_depend_on_input_order_witness :
  let a := Impl (vector4 kFloatDtype cpu 1) in
  let b := Impl (matrix34 kFloatDtype cpu 2) in
  let c := Impl (tensor [1; 3] [0; 1] kFloatDtype cpu 3) in
  let r := AddProduct (float := Z) 1 1 a b c [] in
  let r' := AddProduct (float := Z) 1 1 b a c [] in
  same_ending r r'
  /\ filter (fun k => negb (is_entry k)) (calls (final_state r))
     = filter (fun k => negb (is_entry k)) (calls (final_state r'))
  /\ arg_a (final_state r) = arg_b (final_state r')
  /\ arg_b (final_state r) = arg_a (final_state r')
  /\ arg_c (final_state r) = arg_c (final_state r').
Proof.
  refine (@product_does_not_depend_on_input_order lib Z 1 1
            (Impl (vector4 kFloatDtype cpu 1)) (Impl (matrix34 kFloatDtype cpu 2))
            (Impl (tensor [1; 3] [0; 1] kFloatDtype cpu 3)) [] _).
  discriminate.
Defined.

